(** * Social-media monitoring pipeline: orchestrator and database handler

    A shallow embedding of [main_orchestrator.py] and [db_handler.py].

    Python code that mutates objects and raises exceptions is written in a
    state-and-exception monad [M S A := S -> result A * S]; [try]/[except]/
    [finally] are the combinators [try_except] and [try_finally].  What the
    two files use but do not define (the collector, the ML processor, the
    alert manager, the clock, the PostgreSQL server reached through
    psycopg2) is gathered in the record [Env]: every theorem quantifies over
    it, so each of these collaborators may answer or fail in any way.

    Conventions of the model:
    - time stamps and durations are integers (ticks of the clock);
    - the [logging] calls and the writing of [pipeline_summary.json]
      succeed: a summary holds numbers, strings, lists and dictionaries
      only, so [json.dump] accepts it;
    - opening a connection, executing a statement, committing and rolling
      back may fail: [conn.rollback()] in an [except] block is not guarded,
      and on a connection that was lost it raises;
    - [pool.putconn(conn)] in the [finally] blocks does not fail: the
      connection was handed out by this pool, and none of the methods
      modelled here closes the pool. *)

From Stdlib Require Import ZArith List String Bool Lia.
Import ListNotations.
Open Scope string_scope.
Open Scope Z_scope.

(** ** Exceptions and results *)

(** A Python exception (a subclass of [Exception]): its class name and
    [str(e)]. *)
Record exn := mkExn { exn_type : string; exn_str : string }.

Inductive result (A : Type) : Type :=
| Ok (a : A)
| Raise (e : exn).
Arguments Ok {A} a.
Arguments Raise {A} e.

(** ** The state-and-exception monad *)

Definition M (S A : Type) : Type := S -> result A * S.

Definition ret {S A} (a : A) : M S A := fun s => (Ok a, s).

Definition raise {S A} (e : exn) : M S A := fun s => (Raise e, s).

Definition bind {S A B} (m : M S A) (k : A -> M S B) : M S B :=
  fun s => match m s with
           | (Ok a, s') => k a s'
           | (Raise e, s') => (Raise e, s')
           end.

Definition get {S} : M S S := fun s => (Ok s, s).

Definition modify {S} (f : S -> S) : M S unit := fun s => (Ok tt, f s).

(** [try: body  except Exception as e: handler e] *)
Definition try_except {S A} (body : M S A) (handler : exn -> M S A) : M S A :=
  fun s => match body s with
           | (Ok a, s') => (Ok a, s')
           | (Raise e, s') => handler e s'
           end.

(** [try: body  finally: fin].  The [finally] block runs on every exit of
    [body]; an exception raised by the block itself replaces the outcome. *)
Definition try_finally {S A} (body : M S A) (fin : M S unit) : M S A :=
  fun s => match body s with
           | (r, s') =>
               match fin s' with
               | (Ok _, s'') => (r, s'')
               | (Raise e, s'') => (Raise e, s'')
               end
           end.

(** An optional failure decided by the environment. *)
Definition fault {S} (f : option exn) : M S unit :=
  match f with
  | Some e => raise e
  | None => ret tt
  end.

(** A result decided by the environment. *)
Definition outcome {S A} (r : result A) : M S A :=
  match r with
  | Ok a => ret a
  | Raise e => raise e
  end.

Declare Scope monad_scope.
Delimit Scope monad_scope with monad.
Notation "x <- c ;; k" := (bind c (fun x => k))
  (at level 61, c at next level, right associativity) : monad_scope.
Notation "c ;; k" := (bind c (fun _ => k))
  (at level 61, right associativity) : monad_scope.
Open Scope monad_scope.

(** [for x in xs: body x] *)
Fixpoint for_each {S A} (xs : list A) (body : A -> M S unit) : M S unit :=
  match xs with
  | [] => ret tt
  | x :: rest => body x ;; for_each rest body
  end.

(** ** Log records

    A record of the [logging] module: level, message and the values
    interpolated into it (an f-string [f"Inserted {n} raw posts"] is the
    message ["Inserted {} raw posts"] with argument [n]). *)

Inductive level := INFO | WARNING | ERROR.

Inductive pyval :=
| VStr (s : string)
| VInt (z : Z)
| VList (l : list string)
| VCounts (l : list (string * Z)).

Record LogRecord := mkLog { lvl : level; msg : string; args : list pyval }.

(** ** Records exchanged between the stages *)

(** [asdict(SocialPost)]: the twelve keys read by [insert_raw_posts].
    [post_id] and [platform] may be [None]. *)
Record RawPost := mkRawPost {
  post_id : option string;
  platform : option string;
  title : string;
  content : string;
  author : string;
  created_utc : Z;
  url : string;
  score : Z;
  num_comments : Z;
  subreddit : string;
  keywords_matched : list string;
  collected_at : string
}.

(** [asdict] of a processed post: the keys read by [insert_processed_posts]
    and by [_generate_alerts].  Scores are fixed-point numbers. *)
Record ProcessedPost := mkProcessedPost {
  p_post_id : option string;
  sentiment_label : string;
  sentiment_score : Z;
  topics : list string;
  entities : list (string * string);
  processed_at : string;
  alert_triggered : bool;
  alert_reasons : list string
}.

(** ** The database as the handler sees it *)

Record ProcessedRow := mkProcessedRow {
  pr_post : ProcessedPost;
  pr_model_version : string
}.

Record AlertRow := mkAlertRow {
  a_id : Z;
  a_post_id : string;
  a_alert_type : string;
  a_severity : string;
  a_message : string;
  a_reasons : list string;
  a_triggered_at : Z;
  a_acknowledged : bool
}.

Record MetricRow := mkMetricRow {
  metric_name : string;
  metric_value : Z;
  metric_metadata : list (string * string)
}.

(** The four tables of [SCHEMA_SQL], rows in insertion order. *)
Record Tables := mkTables {
  raw_posts : list RawPost;
  processed_posts : list ProcessedRow;
  alerts : list AlertRow;
  pipeline_metrics : list MetricRow
}.

(** The statements the handler sends. *)
Inductive Stmt :=
| SchemaDDL
| InsertRaw (p : RawPost)
| InsertProcessed (p : ProcessedPost) (model_version : string)
| InsertAlert (post_id alert_type severity message : string)
              (reasons : list string) (triggered_at : Z)
| InsertMetric (name : string) (value : Z) (metadata : list (string * string))
| SelectUnacknowledged.

(** What lies outside the pipeline object: the database server with its
    committed tables, the [alerts.id] sequence (not transactional), the
    connection pool of the handler, the wall clock (number of readings
    taken so far) and [database.log]. *)
Record Sys := mkSys {
  tables : Tables;
  alerts_seq : Z;
  pool_idle : nat;
  pool_used : nat;
  ticks : nat;
  db_log : list LogRecord
}.

(** An open connection: the tables as seen by its transaction. *)
Record Conn := mkConn { pending : Tables }.

(** A row of [get_unacknowledged_alerts]: the alert with the display
    fields of its post. *)
Record JoinedAlert := mkJoined {
  j_alert : AlertRow;
  j_title : string;
  j_url : string;
  j_score : Z;
  j_num_comments : Z
}.

(** A cursor: [rowcount], the rows of the last query and the value of
    [RETURNING id]. *)
Record Cursor := mkCursor {
  rowcount : Z;
  fetched : list JoinedAlert;
  returned_id : option Z
}.

(** ** Configuration *)

Record MonitoringConfig := mkMonitoringConfig {
  keywords : option (list string);
  subreddits : option (list string);
  posts_per_subreddit : option Z
}.

Record MlConfig := mkMlConfig {
  model_version : option string
}.

Record AlertsConfig := mkAlertsConfig {
  email_recipients : option (list string)
}.

(** [config.json]: the sections read by [run]; a missing key is [None].
    The sections read only by the constructors of the collaborators stay
    inside the environment. *)
Record Config := mkConfig {
  monitoring : option MonitoringConfig;
  ml : option MlConfig;
  alerts_cfg : option AlertsConfig
}.

(** ** The environment *)

Record Env := mkEnv {
  (** [time.time()] and [datetime.utcnow()]: the n-th reading of the clock *)
  clock : nat -> Z;
  (** [open('config.json')] and [json.load] *)
  config_file : result Config;
  (** constructors of the collaborators, with the configuration look-ups
      of their arguments *)
  new_collector : Config -> option exn;
  new_ml_processor : Config -> option exn;
  database_args : Config -> option exn;
  new_notifier : Config -> option exn;
  new_alert_manager : Config -> option exn;
  (** [collector.collect_posts(keywords, subreddits, limit, time_filter)] *)
  collect_posts : list string -> list string -> Z -> string ->
                  result (list RawPost);
  (** [ml_processor.process_posts(raw_posts_dict)] *)
  process_posts : list RawPost -> result (list ProcessedPost);
  (** [alert_manager.process_alerts(processed_posts, email_recipients)]:
      it has the database handler and may use it *)
  process_alerts : list ProcessedPost -> list string -> M Sys unit;
  (** psycopg2 and the server: failure to open a connection, failure of a
      statement other than the constraint violations modelled below,
      failure of a commit, failure of a rollback (the argument is what the
      transaction has written so far) *)
  connect_fault : Sys -> option exn;
  exec_fault : Tables -> Stmt -> option exn;
  commit_fault : Tables -> option exn;
  rollback_fault : Tables -> option exn
}.

(** ** db_handler.py: [DatabaseHandler] *)

Definition with_tables (t : Tables) (s : Sys) : Sys :=
  mkSys t (alerts_seq s) (pool_idle s) (pool_used s) (ticks s) (db_log s).

Definition with_alerts_seq (n : Z) (s : Sys) : Sys :=
  mkSys (tables s) n (pool_idle s) (pool_used s) (ticks s) (db_log s).

Definition with_pool (idle used : nat) (s : Sys) : Sys :=
  mkSys (tables s) (alerts_seq s) idle used (ticks s) (db_log s).

Definition with_ticks (n : nat) (s : Sys) : Sys :=
  mkSys (tables s) (alerts_seq s) (pool_idle s) (pool_used s) n (db_log s).

Definition with_db_log (l : list LogRecord) (s : Sys) : Sys :=
  mkSys (tables s) (alerts_seq s) (pool_idle s) (pool_used s) (ticks s) l.

(** [SimpleConnectionPool(1, 20, ...)] *)
Definition minconn : nat := 1.
Definition maxconn : nat := 20.

(** The local variable [conn] of a handler method ([conn = None] at entry)
    next to the system state: the [except] and [finally] blocks test it. *)
Definition Frame : Type := Sys * option Conn.

Definition sys_op {A} (m : M Sys A) : M Frame A :=
  fun f => match m (fst f) with
           | (r, s') => (r, (s', snd f))
           end.

(** A method body run with [conn = None]; the frame is dropped on exit. *)
Definition method {A} (body : M Frame A) : M Sys A :=
  fun s => match body (s, None) with
           | (r, f) => (r, fst f)
           end.

Definition opt_string_eqb (a : option string) (b : string) : bool :=
  match a with
  | Some x => String.eqb x b
  | None => false
  end.

Definition has_post_id (t : Tables) (id : string) : bool :=
  existsb (fun r => opt_string_eqb (post_id r) id) (raw_posts t).

(** Constraints of [SCHEMA_SQL] a statement can violate:
    [post_id ... UNIQUE NOT NULL], [platform ... NOT NULL] on [raw_posts];
    [post_id ... NOT NULL REFERENCES raw_posts(post_id)] on
    [processed_posts].  (The unique constraint is the conflict target of
    [ON CONFLICT (post_id) DO NOTHING] and raises nothing.) *)
Definition constraint_violation (t : Tables) (st : Stmt) : option exn :=
  match st with
  | InsertRaw p =>
      match post_id p, platform p with
      | None, _ =>
          Some (mkExn "NotNullViolation"
                  "null value in column post_id violates not-null constraint")
      | Some _, None =>
          Some (mkExn "NotNullViolation"
                  "null value in column platform violates not-null constraint")
      | Some _, Some _ => None
      end
  | InsertProcessed p _ =>
      match p_post_id p with
      | None =>
          Some (mkExn "NotNullViolation"
                  "null value in column post_id violates not-null constraint")
      | Some id =>
          if has_post_id t id then None
          else Some (mkExn "ForeignKeyViolation"
                       "insert on table processed_posts violates foreign key constraint")
      end
  | _ => None
  end.

Definition add_raw (p : RawPost) (t : Tables) : Tables :=
  mkTables (raw_posts t ++ [p]) (processed_posts t) (alerts t)
           (pipeline_metrics t).

Definition add_processed (r : ProcessedRow) (t : Tables) : Tables :=
  mkTables (raw_posts t) (processed_posts t ++ [r]) (alerts t)
           (pipeline_metrics t).

Definition add_alert (a : AlertRow) (t : Tables) : Tables :=
  mkTables (raw_posts t) (processed_posts t) (alerts t ++ [a])
           (pipeline_metrics t).

Definition add_metric (m : MetricRow) (t : Tables) : Tables :=
  mkTables (raw_posts t) (processed_posts t) (alerts t)
           (pipeline_metrics t ++ [m]).

(** [ORDER BY a.triggered_at DESC] *)
Fixpoint insert_desc (j : JoinedAlert) (l : list JoinedAlert) : list JoinedAlert :=
  match l with
  | [] => [j]
  | x :: rest =>
      if a_triggered_at (j_alert x) <? a_triggered_at (j_alert j)
      then j :: x :: rest
      else x :: insert_desc j rest
  end.

Definition order_by_triggered_desc (l : list JoinedAlert) : list JoinedAlert :=
  fold_right insert_desc [] l.

(** [alerts a JOIN raw_posts r ON a.post_id = r.post_id
     WHERE a.acknowledged = FALSE] *)
Definition select_unacknowledged (t : Tables) : list JoinedAlert :=
  order_by_triggered_desc
    (flat_map
       (fun a =>
          if a_acknowledged a then []
          else map (fun r => mkJoined a (title r) (url r) (score r)
                                      (num_comments r))
                   (filter (fun r => opt_string_eqb (post_id r) (a_post_id a))
                           (raw_posts t)))
       (alerts t)).

Definition unwrap (o : option string) : string :=
  match o with
  | Some s => s
  | None => ""
  end.

Section WithEnv.

Variable env : Env.

Definition db_logger (l : level) (m : string) (a : list pyval) : M Sys unit :=
  modify (fun s => with_db_log (db_log s ++ [mkLog l m a]) s).

(** [datetime.utcnow()], [time.time()] *)
Definition time_time : M Sys Z :=
  fun s => (Ok (clock env (ticks s)), with_ticks (S (ticks s)) s).

(** [pool.getconn()]: an idle connection if there is one; otherwise a new
    one unless [maxconn] are in use. *)
Definition get_connection : M Sys Conn :=
  fun s =>
    match pool_idle s with
    | S n => (Ok (mkConn (tables s)), with_pool n (S (pool_used s)) s)
    | O =>
        if Nat.eqb (pool_used s) maxconn
        then (Raise (mkExn "PoolError" "connection pool exhausted"), s)
        else match connect_fault env s with
             | Some e => (Raise e, s)
             | None => (Ok (mkConn (tables s)),
                        with_pool O (S (pool_used s)) s)
             end
    end.

(** [pool.putconn(conn)]: kept idle while fewer than [minconn] are idle,
    closed otherwise; in both cases no longer in use. *)
Definition return_connection (c : Conn) : M Sys unit :=
  modify (fun s =>
            with_pool (if Nat.ltb (pool_idle s) minconn
                       then S (pool_idle s) else pool_idle s)
                      (Nat.pred (pool_used s)) s).

(** [conn = self.get_connection()] *)
Definition acquire : M Frame unit :=
  fun f => match get_connection (fst f) with
           | (Ok c, s') => (Ok tt, (s', Some c))
           | (Raise e, s') => (Raise e, (s', snd f))
           end.

(** A fresh cursor: [rowcount] is -1 until a statement is executed. *)
Definition cursor : Cursor := mkCursor (-1) [] None.

(** [cursor.execute(stmt)] inside the transaction of [conn]. *)
Definition execute (cur : Cursor) (st : Stmt) : M Frame Cursor :=
  fun f =>
    match snd f with
    | None => (Raise (mkExn "InterfaceError" "connection already closed"), f)
    | Some c =>
        let t := pending c in
        match constraint_violation t st with
        | Some e => (Raise e, f)
        | None =>
            match exec_fault env t st with
            | Some e => (Raise e, f)
            | None =>
                match st with
                | SchemaDDL => (Ok (mkCursor (-1) [] None), f)
                | InsertRaw p =>
                    if has_post_id t (unwrap (post_id p))
                    then (Ok (mkCursor 0 [] None), f)
                    else (Ok (mkCursor 1 [] None),
                          (fst f, Some (mkConn (add_raw p t))))
                | InsertProcessed p mv =>
                    (Ok (mkCursor 1 [] None),
                     (fst f, Some (mkConn (add_processed (mkProcessedRow p mv) t))))
                | InsertAlert pid ty sev m rs at_ =>
                    let id := alerts_seq (fst f) + 1 in
                    (Ok (mkCursor 1 [] (Some id)),
                     (with_alerts_seq id (fst f),
                      Some (mkConn (add_alert
                                      (mkAlertRow id pid ty sev m rs at_ false) t))))
                | InsertMetric n v md =>
                    (Ok (mkCursor 1 [] None),
                     (fst f, Some (mkConn (add_metric (mkMetricRow n v md) t))))
                | SelectUnacknowledged =>
                    let rows := select_unacknowledged t in
                    (Ok (mkCursor (Z.of_nat (List.length rows)) rows None), f)
                end
            end
        end
    end.

(** [psycopg2.extras.execute_batch(cursor, sql, argslist)]: the statements
    are executed in order, inside the transaction of the connection; the
    first failure raises.  psycopg2 joins them in pages and sends a page as
    one command string, whose result is that of its last statement, so
    that, in the words of its documentation, after the call
    [cursor.rowcount] will not contain a total result: it is the count of
    the last statement (and still -1 when [argslist] is empty).  Where the
    pages are cut changes neither the tables nor that count. *)
Fixpoint execute_batch (cur : Cursor) (sts : list Stmt) : M Frame Cursor :=
  match sts with
  | [] => ret cur
  | st :: rest => cur' <- execute cur st ;; execute_batch cur' rest
  end.

(** [conn.commit()] *)
Definition commit : M Frame unit :=
  fun f =>
    match snd f with
    | None => (Raise (mkExn "InterfaceError" "connection already closed"), f)
    | Some c =>
        match commit_fault env (pending c) with
        | Some e => (Raise e, f)
        | None => (Ok tt, (with_tables (pending c) (fst f), Some c))
        end
    end.

(** [if conn: conn.rollback()]: the writes of the transaction are
    discarded and the connection sees the committed tables again; the call
    itself may raise (psycopg2 raises [InterfaceError] or
    [OperationalError] on a connection that was closed or lost), and then
    the exception leaves the [except] block that made the call. *)
Definition rollback_if_conn : M Frame unit :=
  fun f =>
    match snd f with
    | None => (Ok tt, f)
    | Some c =>
        match rollback_fault env (pending c) with
        | Some e => (Raise e, f)
        | None => (Ok tt, (fst f, Some (mkConn (tables (fst f)))))
        end
    end.

(** [if conn: self.return_connection(conn)] *)
Definition return_if_conn : M Frame unit :=
  fun f =>
    match snd f with
    | None => (Ok tt, f)
    | Some c => sys_op (return_connection c) f
    end.

Definition init_schema : M Sys unit :=
  method
    (try_finally
       (try_except
          (acquire ;;
           _ <- execute cursor SchemaDDL ;;
           commit ;;
           sys_op (db_logger INFO "Database schema initialized successfully" []))
          (fun e =>
             sys_op (db_logger ERROR "Error initializing schema: {}"
                               [VStr (exn_str e)]) ;;
             rollback_if_conn ;;
             raise e))
       return_if_conn).

(** The body of [insert_raw_posts], on the frame that holds its local
    variable [conn]. *)
Definition insert_raw_posts_frame (posts : list RawPost) : M Frame Z :=
  try_finally
    (try_except
       (acquire ;;
        let values := map InsertRaw posts in
        cur <- execute_batch cursor values ;;
        let inserted_count := rowcount cur in
        commit ;;
        sys_op (db_logger INFO "Inserted {} raw posts" [VInt inserted_count]) ;;
        ret inserted_count)
       (fun e =>
          sys_op (db_logger ERROR "Error inserting raw posts: {}"
                            [VStr (exn_str e)]) ;;
          rollback_if_conn ;;
          raise e))
    return_if_conn.

Definition insert_raw_posts (posts : list RawPost) : M Sys Z :=
  method (insert_raw_posts_frame posts).

Definition insert_processed_posts (posts : list ProcessedPost)
    (model_version : string) : M Sys Z :=
  method
    (try_finally
       (try_except
          (acquire ;;
           let values := map (fun p => InsertProcessed p model_version) posts in
           cur <- execute_batch cursor values ;;
           let inserted_count := rowcount cur in
           commit ;;
           sys_op (db_logger INFO "Inserted {} processed posts"
                             [VInt inserted_count]) ;;
           ret inserted_count)
          (fun e =>
             sys_op (db_logger ERROR "Error inserting processed posts: {}"
                               [VStr (exn_str e)]) ;;
             rollback_if_conn ;;
             raise e))
       return_if_conn).

Definition insert_alert (post_id alert_type severity message : string)
    (reasons : list string) : M Sys Z :=
  method
    (try_finally
       (try_except
          (acquire ;;
           now <- sys_op time_time ;;
           cur <- execute cursor
                    (InsertAlert post_id alert_type severity message reasons now) ;;
           match returned_id cur with
           | None => raise (mkExn "TypeError" "'NoneType' object is not subscriptable")
           | Some alert_id =>
               commit ;;
               sys_op (db_logger INFO "Inserted alert {} for post {}"
                                 [VInt alert_id; VStr post_id]) ;;
               ret alert_id
           end)
          (fun e =>
             sys_op (db_logger ERROR "Error inserting alert: {}"
                               [VStr (exn_str e)]) ;;
             rollback_if_conn ;;
             raise e))
       return_if_conn).

(** [metadata or {}] *)
Definition metadata_or_empty (metadata : option (list (string * string)))
    : list (string * string) :=
  match metadata with
  | Some m => m
  | None => []
  end.

Definition record_metric (metric_name : string) (metric_value : Z)
    (metadata : option (list (string * string))) : M Sys unit :=
  method
    (try_finally
       (try_except
          (acquire ;;
           _ <- execute cursor
                  (InsertMetric metric_name metric_value
                                (metadata_or_empty metadata)) ;;
           commit)
          (fun e =>
             sys_op (db_logger ERROR "Error recording metric: {}"
                               [VStr (exn_str e)]) ;;
             rollback_if_conn))
       return_if_conn).

Definition get_unacknowledged_alerts : M Sys (list JoinedAlert) :=
  method
    (try_finally
       (try_except
          (acquire ;;
           cur <- execute cursor SelectUnacknowledged ;;
           ret (fetched cur))
          (fun e =>
             sys_op (db_logger ERROR "Error fetching alerts: {}"
                               [VStr (exn_str e)]) ;;
             ret []))
       return_if_conn).

(** [DatabaseHandler.__init__]: the pool opens [minconn] connections, then
    the schema is initialised. *)
Definition DatabaseHandler_init : M Sys unit :=
  try_except
    ((fun s => match connect_fault env s with
               | Some e => (Raise e, s)
               | None => (Ok tt, with_pool minconn O s)
               end) ;;
     db_logger INFO "Database connection pool initialized" [] ;;
     init_schema)
    (fun e =>
       db_logger ERROR "Failed to initialize database: {}" [VStr (exn_str e)] ;;
       raise e).

End WithEnv.

(** ** main_orchestrator.py: [PipelineMetrics] *)

(** The inner dictionary of [stage_durations]: [{'start': ...}], to which
    [end_stage] adds ['end'] and ['duration']. *)
Record StageTiming := mkStage {
  st_start : Z;
  st_end : option Z;
  st_duration : option Z
}.

Record ErrorEntry := mkError {
  err_stage : string;
  err_error : string;
  err_timestamp : Z
}.

Record PipelineMetrics := mkMetrics {
  start_time : option Z;
  end_time : option Z;
  posts_collected : Z;
  posts_processed : Z;
  posts_stored : Z;
  alerts_generated : Z;
  errors : list ErrorEntry;
  stage_durations : list (string * StageTiming)
}.

(** [PipelineMetrics.__init__] *)
Definition PipelineMetrics_init : PipelineMetrics :=
  mkMetrics None None 0 0 0 0 [] [].

(** The dictionary returned by [get_summary] and dumped to
    [pipeline_summary.json]. *)
Record Summary := mkSummary {
  sum_execution_time : Z;
  sum_start_time : option Z;
  sum_end_time : option Z;
  sum_posts_collected : Z;
  sum_posts_processed : Z;
  sum_posts_stored : Z;
  sum_alerts_generated : Z;
  sum_error_count : Z;
  sum_errors : list ErrorEntry;
  sum_stage_durations : list (string * Z)
}.

(** The pipeline object's metrics, [pipeline.log] and the summary file,
    with the system state around them. *)
Record World := mkWorld {
  sys : Sys;
  metrics : PipelineMetrics;
  log : list LogRecord;
  summary_file : option Summary
}.

Definition with_sys (s : Sys) (w : World) : World :=
  mkWorld s (metrics w) (log w) (summary_file w).

Definition with_metrics (m : PipelineMetrics) (w : World) : World :=
  mkWorld (sys w) m (log w) (summary_file w).

Definition with_log (l : list LogRecord) (w : World) : World :=
  mkWorld (sys w) (metrics w) l (summary_file w).

Definition with_summary_file (f : option Summary) (w : World) : World :=
  mkWorld (sys w) (metrics w) (log w) f.

Definition lift_sys {A} (m : M Sys A) : M World A :=
  fun w => match m (sys w) with
           | (r, s') => (r, with_sys s' w)
           end.

(** Python dictionaries with string keys, in insertion order. *)
Fixpoint dict_get {V} (k : string) (d : list (string * V)) : option V :=
  match d with
  | [] => None
  | (k', v) :: rest => if String.eqb k' k then Some v else dict_get k rest
  end.

Fixpoint dict_set {V} (k : string) (v : V) (d : list (string * V))
    : list (string * V) :=
  match d with
  | [] => [(k, v)]
  | (k', v') :: rest =>
      if String.eqb k' k then (k, v) :: rest
      else (k', v') :: dict_set k v rest
  end.

(** Truth value of a time stamp: [None] and [0] are false. *)
Definition truthy (t : option Z) : bool :=
  match t with
  | Some z => negb (z =? 0)
  | None => false
  end.

(** [v.get('duration', 0)] *)
Definition get_default_duration (d : option Z) : Z :=
  match d with
  | Some x => x
  | None => 0
  end.

Definition time_value (t : option Z) : Z :=
  match t with
  | Some z => z
  | None => 0
  end.

Definition get_summary (m : PipelineMetrics) : Summary :=
  let total_duration :=
    if truthy (end_time m) && truthy (start_time m)
    then time_value (end_time m) - time_value (start_time m)
    else 0 in
  mkSummary total_duration (start_time m) (end_time m)
            (posts_collected m) (posts_processed m) (posts_stored m)
            (alerts_generated m)
            (Z.of_nat (List.length (errors m)))
            (errors m)
            (map (fun kv => (fst kv, get_default_duration (st_duration (snd kv))))
                 (stage_durations m)).

Definition set_start_time (t : option Z) (m : PipelineMetrics) :=
  mkMetrics t (end_time m) (posts_collected m) (posts_processed m)
            (posts_stored m) (alerts_generated m) (errors m) (stage_durations m).

Definition set_end_time (t : option Z) (m : PipelineMetrics) :=
  mkMetrics (start_time m) t (posts_collected m) (posts_processed m)
            (posts_stored m) (alerts_generated m) (errors m) (stage_durations m).

Definition set_posts_collected (n : Z) (m : PipelineMetrics) :=
  mkMetrics (start_time m) (end_time m) n (posts_processed m)
            (posts_stored m) (alerts_generated m) (errors m) (stage_durations m).

Definition set_posts_processed (n : Z) (m : PipelineMetrics) :=
  mkMetrics (start_time m) (end_time m) (posts_collected m) n
            (posts_stored m) (alerts_generated m) (errors m) (stage_durations m).

Definition set_posts_stored (n : Z) (m : PipelineMetrics) :=
  mkMetrics (start_time m) (end_time m) (posts_collected m) (posts_processed m)
            n (alerts_generated m) (errors m) (stage_durations m).

Definition set_alerts_generated (n : Z) (m : PipelineMetrics) :=
  mkMetrics (start_time m) (end_time m) (posts_collected m) (posts_processed m)
            (posts_stored m) n (errors m) (stage_durations m).

Definition set_errors (l : list ErrorEntry) (m : PipelineMetrics) :=
  mkMetrics (start_time m) (end_time m) (posts_collected m) (posts_processed m)
            (posts_stored m) (alerts_generated m) l (stage_durations m).

Definition set_stage_durations (d : list (string * StageTiming))
    (m : PipelineMetrics) :=
  mkMetrics (start_time m) (end_time m) (posts_collected m) (posts_processed m)
            (posts_stored m) (alerts_generated m) (errors m) d.

Definition update_metrics (f : PipelineMetrics -> PipelineMetrics)
    : M World unit :=
  modify (fun w => with_metrics (f (metrics w)) w).

(** The module-level [logger] of the orchestrator. *)
Definition logger (l : level) (m : string) (a : list pyval) : M World unit :=
  modify (fun w => with_log (log w ++ [mkLog l m a]) w).

Section Pipeline.

Variable env : Env.

Definition now : M World Z := lift_sys (time_time env).

Definition start_stage (stage_name : string) : M World unit :=
  t <- now ;;
  update_metrics
    (fun m => set_stage_durations
                (dict_set stage_name (mkStage t None None) (stage_durations m)) m).

Definition end_stage (stage_name : string) : M World unit :=
  w <- get ;;
  match dict_get stage_name (stage_durations (metrics w)) with
  | Some st =>
      t <- now ;;
      update_metrics
        (fun m => set_stage_durations
                    (dict_set stage_name
                       (mkStage (st_start st) (Some t) (Some (t - st_start st)))
                       (stage_durations m)) m)
  | None => ret tt
  end.

Definition add_error (stage error : string) : M World unit :=
  t <- now ;;
  update_metrics (fun m => set_errors (errors m ++ [mkError stage error t]) m).

(** ** main_orchestrator.py: [SocialMonitoringPipeline] *)

Definition nl : string := String (Ascii.ascii_of_nat 10) "".

Fixpoint repeat_string (s : string) (n : nat) : string :=
  match n with
  | O => ""
  | S k => s ++ repeat_string s k
  end.

Definition dashes : string := repeat_string "-" 80.
Definition equals : string := repeat_string "=" 80.

(** The banners logged on entry to each stage. *)
Definition STAGE_1 : string := "STAGE 1: Data Collection".
Definition STAGE_2 : string := nl ++ "STAGE 2: ML Processing".
Definition STAGE_3 : string := nl ++ "STAGE 3: Data Storage".
Definition STAGE_4 : string := nl ++ "STAGE 4: Alert Generation".
Definition STAGE_5 : string := nl ++ "STAGE 5: Recording Metrics".

Definition KeyError (k : string) : exn :=
  mkExn "KeyError" ("'" ++ k ++ "'").

(** [d[k]] on a section of the configuration *)
Definition item {S A} (k : string) (v : option A) : M S A :=
  match v with
  | Some a => ret a
  | None => raise (KeyError k)
  end.

(** [d.get(k, default)] *)
Definition get_default {A} (v : option A) (default : A) : A :=
  match v with
  | Some a => a
  | None => default
  end.

Definition len {A} (l : list A) : Z := Z.of_nat (List.length l).

Definition traceback (e : exn) : list pyval :=
  [VStr (exn_type e); VStr (exn_str e)].

Variable config : Config.

Definition _collect_data : M World (list RawPost) :=
  logger INFO STAGE_1 [] ;;
  logger INFO dashes [] ;;
  start_stage "collection" ;;
  try_finally
    (try_except
       (m <- item "monitoring" (monitoring config) ;;
        keywords <- item "keywords" (keywords m) ;;
        m <- item "monitoring" (monitoring config) ;;
        subreddits <- item "subreddits" (subreddits m) ;;
        m <- item "monitoring" (monitoring config) ;;
        let limit := get_default (posts_per_subreddit m) 50 in
        logger INFO "Collecting posts for keywords: {}" [VList keywords] ;;
        logger INFO "From subreddits: {}" [VList subreddits] ;;
        posts <- outcome (collect_posts env keywords subreddits limit "day") ;;
        update_metrics (set_posts_collected (len posts)) ;;
        logger INFO "✓ Collected {} posts" [VInt (len posts)] ;;
        ret posts)
       (fun e =>
          logger ERROR "Data collection failed: {}" [VStr (exn_str e)] ;;
          add_error "collection" (exn_str e) ;;
          raise e))
    (end_stage "collection").

(** The loop that counts the posts of each sentiment label. *)
Definition sentiment_distribution (posts : list ProcessedPost)
    : list (string * Z) :=
  fold_left
    (fun counts post =>
       let label := sentiment_label post in
       dict_set label (get_default (dict_get label counts) 0 + 1) counts)
    posts [].

Definition _process_data (raw_posts : list RawPost)
    : M World (list ProcessedPost) :=
  logger INFO STAGE_2 [] ;;
  logger INFO dashes [] ;;
  start_stage "processing" ;;
  try_finally
    (try_except
       (let raw_posts_dict := raw_posts in
        logger INFO "Running sentiment analysis, NER, and topic modeling..." [] ;;
        processed_posts <- outcome (process_posts env raw_posts_dict) ;;
        update_metrics (set_posts_processed (len processed_posts)) ;;
        let sentiment_counts := sentiment_distribution processed_posts in
        logger INFO "✓ Processed {} posts" [VInt (len processed_posts)] ;;
        logger INFO "  Sentiment distribution: {}" [VCounts sentiment_counts] ;;
        logger INFO "  Alerts triggered: {}"
               [VInt (len (filter alert_triggered processed_posts))] ;;
        ret processed_posts)
       (fun e =>
          logger ERROR "Data processing failed: {}" [VStr (exn_str e)] ;;
          add_error "processing" (exn_str e) ;;
          raise e))
    (end_stage "processing").

Definition _store_data (raw_posts : list RawPost)
    (processed_posts : list ProcessedPost) : M World unit :=
  logger INFO STAGE_3 [] ;;
  logger INFO dashes [] ;;
  start_stage "storage" ;;
  try_finally
    (try_except
       (let raw_posts_dict := raw_posts in
        raw_count <- lift_sys (insert_raw_posts env raw_posts_dict) ;;
        logger INFO "✓ Stored {} raw posts" [VInt raw_count] ;;
        m <- item "ml" (ml config) ;;
        processed_count <-
          lift_sys (insert_processed_posts env processed_posts
                      (get_default (model_version m) "v1.0")) ;;
        logger INFO "✓ Stored {} processed posts" [VInt processed_count] ;;
        update_metrics (set_posts_stored raw_count))
       (fun e =>
          logger ERROR "Data storage failed: {}" [VStr (exn_str e)] ;;
          add_error "storage" (exn_str e) ;;
          raise e))
    (end_stage "storage").

(** The [try] block of [_generate_alerts]. *)
Definition _generate_alerts_try (processed_posts : list ProcessedPost)
    : M World unit :=
  a <- item "alerts" (alerts_cfg config) ;;
  let recipients := get_default (email_recipients a) [] in
  lift_sys (process_alerts env processed_posts recipients) ;;
  let alert_count := len (filter alert_triggered processed_posts) in
  update_metrics (set_alerts_generated alert_count) ;;
  logger INFO "✓ Generated and sent {} alerts" [VInt alert_count].

(** What [_generate_alerts] does before its [try] statement. *)
Definition _generate_alerts_begin : M World unit :=
  logger INFO STAGE_4 [] ;;
  logger INFO dashes [] ;;
  start_stage "alerts".

Definition _generate_alerts (processed_posts : list ProcessedPost)
    : M World unit :=
  _generate_alerts_begin ;;
  try_finally
    (try_except
       (_generate_alerts_try processed_posts)
       (fun e =>
          logger ERROR "Alert generation failed: {}" [VStr (exn_str e)] ;;
          add_error "alerts" (exn_str e)))
    (end_stage "alerts").

Definition _record_metrics : M World unit :=
  logger INFO STAGE_5 [] ;;
  logger INFO dashes [] ;;
  try_except
    (w <- get ;;
     let summary := get_summary (metrics w) in
     lift_sys (record_metric env "posts_collected"
                 (sum_posts_collected summary) None) ;;
     lift_sys (record_metric env "posts_processed"
                 (sum_posts_processed summary) None) ;;
     lift_sys (record_metric env "alerts_generated"
                 (sum_alerts_generated summary) None) ;;
     lift_sys (record_metric env "execution_time"
                 (sum_execution_time summary) None) ;;
     lift_sys (record_metric env "error_count"
                 (sum_error_count summary) None) ;;
     logger INFO "✓ Metrics recorded to database" [])
    (fun e =>
       logger ERROR "Failed to record metrics: {}" [VStr (exn_str e)]).

Definition SUMMARY_BANNER : string := "PIPELINE EXECUTION SUMMARY".

Definition _print_summary : M World unit :=
  w <- get ;;
  let summary := get_summary (metrics w) in
  logger INFO (nl ++ equals) [] ;;
  logger INFO SUMMARY_BANNER [] ;;
  logger INFO equals [] ;;
  logger INFO "Total Execution Time: {:.2f} seconds"
         [VInt (sum_execution_time summary)] ;;
  logger INFO "Posts Collected: {}" [VInt (sum_posts_collected summary)] ;;
  logger INFO "Posts Processed: {}" [VInt (sum_posts_processed summary)] ;;
  logger INFO "Posts Stored: {}" [VInt (sum_posts_stored summary)] ;;
  logger INFO "Alerts Generated: {}" [VInt (sum_alerts_generated summary)] ;;
  logger INFO "Errors: {}" [VInt (sum_error_count summary)] ;;
  logger INFO (nl ++ "Stage Durations:") [] ;;
  for_each (sum_stage_durations summary)
    (fun sd => logger INFO "  {}: {:.2f}s" [VStr (fst sd); VInt (snd sd)]) ;;
  (match sum_errors summary with
   | [] => ret tt
   | _ :: _ =>
       logger INFO (nl ++ "Errors:") [] ;;
       for_each (sum_errors summary)
         (fun error =>
            logger INFO "  [{}] {}" [VStr (err_stage error); VStr (err_error error)])
   end) ;;
  logger INFO (equals ++ nl) [] ;;
  modify (with_summary_file (Some summary)).

(** The [try] block of [run]; each [return] ends the block. *)
Definition run_body : M World unit :=
  raw_posts <- _collect_data ;;
  match raw_posts with
  | [] => logger WARNING "No posts collected, exiting pipeline" []
  | _ :: _ =>
      processed_posts <- _process_data raw_posts ;;
      match processed_posts with
      | [] => logger WARNING "No posts processed, exiting pipeline" []
      | _ :: _ =>
          _store_data raw_posts processed_posts ;;
          _generate_alerts processed_posts ;;
          _record_metrics ;;
          logger INFO equals [] ;;
          logger INFO "PIPELINE COMPLETED SUCCESSFULLY" [] ;;
          logger INFO equals []
      end
  end.

(** The [except] block of [run]. *)
Definition run_except (e : exn) : M World unit :=
  logger ERROR "Pipeline execution failed: {}" [VStr (exn_str e)] ;;
  logger ERROR "{}" (traceback e) ;;
  add_error "pipeline" (exn_str e) ;;
  raise e.

(** The [finally] block of [run]. *)
Definition run_finally : M World unit :=
  t <- now ;;
  update_metrics (set_end_time (Some t)) ;;
  _print_summary.

(** What [run] does before its [try] statement. *)
Definition run_begin : M World unit :=
  logger INFO equals [] ;;
  logger INFO "STARTING SOCIAL MEDIA MONITORING PIPELINE" [] ;;
  logger INFO equals [] ;;
  t <- now ;;
  update_metrics (set_start_time (Some t)).

Definition run : M World unit :=
  run_begin ;;
  try_finally (try_except run_body run_except) run_finally.

End Pipeline.

Section Main.

Variable env : Env.

Definition load_config : M World Config :=
  try_except
    (config <- outcome (config_file env) ;;
     logger INFO "Configuration loaded from {}" [VStr "config.json"] ;;
     ret config)
    (fun e =>
       logger ERROR "Failed to load config: {}" [VStr (exn_str e)] ;;
       raise e).

(** [SocialMonitoringPipeline.__init__] *)
Definition SocialMonitoringPipeline_init (config : Config) : M World unit :=
  update_metrics (fun _ => PipelineMetrics_init) ;;
  try_except
    (fault (new_collector env config) ;;
     fault (new_ml_processor env config) ;;
     fault (database_args env config) ;;
     lift_sys (DatabaseHandler_init env) ;;
     fault (new_notifier env config) ;;
     fault (new_alert_manager env config) ;;
     logger INFO "Pipeline components initialized successfully" [])
    (fun e =>
       logger ERROR "Failed to initialize pipeline: {}" [VStr (exn_str e)] ;;
       raise e).

(** The value of [main()] is the exit code of the process. *)
Definition main : M World Z :=
  try_except
    (config <- load_config ;;
     SocialMonitoringPipeline_init config ;;
     run env config ;;
     ret 0)
    (fun e =>
       logger ERROR "Pipeline failed: {}" [VStr (exn_str e)] ;;
       logger ERROR "{}" (traceback e) ;;
       ret 1).

End Main.

(** * Predicates used by the statements *)

(** A computation on a method frame that neither takes nor gives back a
    connection: the pool count and the presence of [conn] are kept. *)
Definition keeps_frame {A} (m : M Frame A) : Prop :=
  forall f r f', m f = (r, f') ->
    pool_used (fst f') = pool_used (fst f) /\
    (snd f' = None <-> snd f = None).

(** A computation that always returns normally. *)
Definition total {S A} (m : M S A) : Prop :=
  forall s, exists a s', m s = (Ok a, s').

(** A computation on a method frame that leaves the committed tables as
    they are. *)
Definition keeps_tables {A} (m : M Frame A) : Prop :=
  forall f r f', m f = (r, f') -> tables (fst f') = tables (fst f).

(** A log record that is none of the given stage banners. *)
Definition quiet (banners : list string) (r : LogRecord) : bool :=
  negb (existsb (String.eqb (msg r)) banners).

(** The records [_print_summary] writes for a summary. *)
Definition summary_lines (summary : Summary) : list LogRecord :=
  [ mkLog INFO (nl ++ equals) [];
    mkLog INFO SUMMARY_BANNER [];
    mkLog INFO equals [];
    mkLog INFO "Total Execution Time: {:.2f} seconds"
          [VInt (sum_execution_time summary)];
    mkLog INFO "Posts Collected: {}" [VInt (sum_posts_collected summary)];
    mkLog INFO "Posts Processed: {}" [VInt (sum_posts_processed summary)];
    mkLog INFO "Posts Stored: {}" [VInt (sum_posts_stored summary)];
    mkLog INFO "Alerts Generated: {}" [VInt (sum_alerts_generated summary)];
    mkLog INFO "Errors: {}" [VInt (sum_error_count summary)];
    mkLog INFO (nl ++ "Stage Durations:") [] ]
  ++ map (fun sd => mkLog INFO "  {}: {:.2f}s" [VStr (fst sd); VInt (snd sd)])
         (sum_stage_durations summary)
  ++ match sum_errors summary with
     | [] => []
     | _ :: _ =>
         mkLog INFO (nl ++ "Errors:") []
         :: map (fun error =>
                   mkLog INFO "  [{}] {}"
                         [VStr (err_stage error); VStr (err_error error)])
                (sum_errors summary)
     end
  ++ [ mkLog INFO (equals ++ nl) [] ].

(** The world left by the [finally] block of [run] entered in [w]. *)
Definition finalized (env : Env) (w : World) : World :=
  let m := set_end_time (Some (clock env (ticks (sys w)))) (metrics w) in
  mkWorld (with_ticks (S (ticks (sys w))) (sys w)) m
          (log w ++ summary_lines (get_summary m))
          (Some (get_summary m)).

(** In a run whose [try] block is entered in [w], the fatal stage [stage]
    is reached and raises [e], leaving [w']. *)
Inductive fatal_stage_raises (env : Env) (config : Config) (w : World)
    : string -> exn -> World -> Prop :=
| collection_raises e w1 :
    _collect_data env config w = (Raise e, w1) ->
    fatal_stage_raises env config w "collection" e w1
| processing_raises raw w1 e w2 :
    _collect_data env config w = (Ok raw, w1) -> raw <> [] ->
    _process_data env raw w1 = (Raise e, w2) ->
    fatal_stage_raises env config w "processing" e w2
| storage_raises raw w1 proc w2 e w3 :
    _collect_data env config w = (Ok raw, w1) -> raw <> [] ->
    _process_data env raw w1 = (Ok proc, w2) -> proc <> [] ->
    _store_data env config raw proc w2 = (Raise e, w3) ->
    fatal_stage_raises env config w "storage" e w3.

(** No record of [l] carries the message [banner]: the stage that logs it
    on entry was not entered while [l] was written. *)
Definition not_logged (banner : string) (l : list LogRecord) : Prop :=
  forall x, In x l -> msg x <> banner.

(** [end_stage name] run in [w] surfaces a warning: the log it leaves has
    a record of level [WARNING] that was not there before. *)
Definition end_stage_flags (env : Env) (name : string) (w : World) : Prop :=
  exists x,
    In x (log (snd (end_stage env name w))) /\ ~ In x (log w) /\
    lvl x = WARNING.

(** The identifiers stored in [raw_posts]. *)
Definition stored_ids (t : Tables) : list (option string) :=
  map post_id (raw_posts t).

(** The identifiers are unique in the tables seen by the open transaction. *)
Definition pending_unique (f : Frame) : Prop :=
  match snd f with
  | Some c => NoDup (stored_ids (pending c))
  | None => True
  end.

(** * Concrete data for the examples *)

Definition post (id platform : option string) : RawPost :=
  mkRawPost id platform "title" "content" "author" 0 "url" 1 2 "sub" ["kw"]
            "2024-01-01T00:00:00".

Definition post_a : RawPost := post (Some "a") (Some "reddit").
Definition post_b : RawPost := post (Some "b") (Some "reddit").
Definition post_malformed : RawPost := post None (Some "reddit").

Definition processed (id : string) (alert : bool) : ProcessedPost :=
  mkProcessedPost (Some id) "negative" 5 [] [] "2024-01-01T00:00:01" alert [].

Definition config0 : Config :=
  mkConfig (Some (mkMonitoringConfig (Some ["kw"]) (Some ["sub"]) None))
           (Some (mkMlConfig None)) (Some (mkAlertsConfig None)).

(** An environment in which every collaborator answers and nothing fails:
    two posts are collected and both are processed. *)
Definition env_ok : Env :=
  mkEnv (fun n => 1000 + Z.of_nat n) (Ok config0)
        (fun _ => None) (fun _ => None) (fun _ => None) (fun _ => None)
        (fun _ => None)
        (fun _ _ _ _ => Ok [post_a; post_b])
        (fun _ => Ok [processed "a" true; processed "b" false])
        (fun _ _ => ret tt)
        (fun _ => None) (fun _ _ => None) (fun _ => None) (fun _ => None).

Definition tables0 : Tables := mkTables [] [] [] [].
Definition sys0 : Sys := mkSys tables0 0 0 0 0 [].
Definition world0 : World := mkWorld sys0 PipelineMetrics_init [] None.

(** The processed post refers to a post that was not collected: the
    insertion into [processed_posts] violates the foreign key and the
    storage stage raises. *)
Definition env_storage_fails : Env :=
  mkEnv (clock env_ok) (config_file env_ok)
        (new_collector env_ok) (new_ml_processor env_ok)
        (database_args env_ok) (new_notifier env_ok)
        (new_alert_manager env_ok)
        (collect_posts env_ok)
        (fun _ => Ok [processed "missing" true])
        (process_alerts env_ok)
        (connect_fault env_ok) (exec_fault env_ok) (commit_fault env_ok)
        (rollback_fault env_ok).

(** The alert manager raises. *)
Definition env_alerts_fail : Env :=
  mkEnv (clock env_ok) (config_file env_ok)
        (new_collector env_ok) (new_ml_processor env_ok)
        (database_args env_ok) (new_notifier env_ok)
        (new_alert_manager env_ok)
        (collect_posts env_ok) (process_posts env_ok)
        (fun _ _ => raise (mkExn "SMTPException" "connection refused"))
        (connect_fault env_ok) (exec_fault env_ok) (commit_fault env_ok)
        (rollback_fault env_ok).

(** The collector finds nothing. *)
Definition env_no_posts : Env :=
  mkEnv (clock env_ok) (config_file env_ok)
        (new_collector env_ok) (new_ml_processor env_ok)
        (database_args env_ok) (new_notifier env_ok)
        (new_alert_manager env_ok)
        (fun _ _ _ _ => Ok [])
        (process_posts env_ok) (process_alerts env_ok)
        (connect_fault env_ok) (exec_fault env_ok) (commit_fault env_ok)
        (rollback_fault env_ok).

(** The collector raises. *)
Definition env_collector_fails : Env :=
  mkEnv (clock env_ok) (config_file env_ok)
        (new_collector env_ok) (new_ml_processor env_ok)
        (database_args env_ok) (new_notifier env_ok)
        (new_alert_manager env_ok)
        (fun _ _ _ _ => Raise (mkExn "RequestException" "rate limited"))
        (process_posts env_ok) (process_alerts env_ok)
        (connect_fault env_ok) (exec_fault env_ok) (commit_fault env_ok)
        (rollback_fault env_ok).

(** The worlds a run started in [world0] goes through. *)
Definition loaded (env : Env) : World := snd (load_config env world0).

Definition constructed (env : Env) : World :=
  snd (SocialMonitoringPipeline_init env config0 (loaded env)).

Definition collected (env : Env) : World :=
  snd (_collect_data env config0 (snd (run_begin env (constructed env)))).

Definition processed_in (env : Env) (raw : list RawPost) : World :=
  snd (_process_data env raw (collected env)).

Definition stored (env : Env) (raw : list RawPost)
    (proc : list ProcessedPost) : World :=
  snd (_store_data env config0 raw proc (processed_in env raw)).

(** * Further predicates and data *)

(** A processed post refers to a raw post stored in [t]. *)
Definition references_stored (t : Tables) (p : ProcessedPost) : Prop :=
  exists id, p_post_id p = Some id /\ has_post_id t id = true.

(** Trigger times never increase along the list. *)
Fixpoint sorted_desc (l : list JoinedAlert) : Prop :=
  match l with
  | [] => True
  | x :: rest =>
      (forall y, In y rest ->
                 a_triggered_at (j_alert y) <= a_triggered_at (j_alert x)) /\
      sorted_desc rest
  end.

(** [j] joins an alert of [t] with the post it refers to. *)
Definition joins (t : Tables) (j : JoinedAlert) : Prop :=
  In (j_alert j) (alerts t) /\
  exists r, In r (raw_posts t) /\
            post_id r = Some (a_post_id (j_alert j)) /\
            j_title j = title r /\ j_url j = url r /\
            j_score j = score r /\ j_num_comments j = num_comments r.

(** The closed entry [end_stage] leaves for a stage started at [t0] and
    ended at [t1]. *)
Definition closed_stage (t0 t1 : Z) : StageTiming :=
  mkStage t0 (Some t1) (Some (t1 - t0)).

(** The sum of the counts of a distribution. *)
Definition total_count (counts : list (string * Z)) : Z :=
  fold_right (fun kv acc => snd kv + acc) 0 counts.

(** The number of posts carrying a label. *)
Definition labelled (label : string) (posts : list ProcessedPost) : Z :=
  len (filter (fun p => String.eqb (sentiment_label p) label) posts).

(** The first key [_collect_data] looks up that the configuration lacks. *)
Definition missing_key (config : Config) : option string :=
  match monitoring config with
  | None => Some "monitoring"
  | Some m =>
      match keywords m, subreddits m with
      | None, _ => Some "keywords"
      | Some _, None => Some "subreddits"
      | Some _, Some _ => None
      end
  end.

(** More concrete data: a database where the posts [a] and [b] are stored,
    a pool at its bound, a configuration without the [monitoring]
    section, a processor that drops every post, a configuration file that
    cannot be read. *)
Definition sys_ab : Sys := snd (insert_raw_posts env_ok [post_a; post_b] sys0).

Definition sys_exhausted : Sys := mkSys tables0 0 0 20 0 [].

Definition config_empty : Config := mkConfig None None None.

Definition env_processor_drops_all : Env :=
  mkEnv (clock env_ok) (config_file env_ok)
        (new_collector env_ok) (new_ml_processor env_ok)
        (database_args env_ok) (new_notifier env_ok)
        (new_alert_manager env_ok)
        (collect_posts env_ok)
        (fun _ => Ok [])
        (process_alerts env_ok)
        (connect_fault env_ok) (exec_fault env_ok) (commit_fault env_ok)
        (rollback_fault env_ok).

Definition env_no_config : Env :=
  mkEnv (clock env_ok)
        (Raise (mkExn "FileNotFoundError" "No such file: config.json"))
        (new_collector env_ok) (new_ml_processor env_ok)
        (database_args env_ok) (new_notifier env_ok)
        (new_alert_manager env_ok)
        (collect_posts env_ok) (process_posts env_ok) (process_alerts env_ok)
        (connect_fault env_ok) (exec_fault env_ok) (commit_fault env_ok)
        (rollback_fault env_ok).

(** The server rejects the insert into [pipeline_metrics]; the connection
    stays up and the rollback succeeds. *)
Definition env_metric_rejected : Env :=
  mkEnv (clock env_ok) (config_file env_ok)
        (new_collector env_ok) (new_ml_processor env_ok)
        (database_args env_ok) (new_notifier env_ok)
        (new_alert_manager env_ok)
        (collect_posts env_ok) (process_posts env_ok) (process_alerts env_ok)
        (connect_fault env_ok)
        (fun _ st =>
           match st with
           | InsertMetric _ _ _ =>
               Some (mkExn "InsufficientPrivilege"
                       "permission denied for table pipeline_metrics")
           | _ => None
           end)
        (commit_fault env_ok)
        (rollback_fault env_ok).

(** The connection to the server is lost while the metrics are recorded:
    the insert into [pipeline_metrics] raises, and so does the rollback on
    the connection, which psycopg2 has marked closed. *)
Definition env_connection_lost : Env :=
  mkEnv (clock env_ok) (config_file env_ok)
        (new_collector env_ok) (new_ml_processor env_ok)
        (database_args env_ok) (new_notifier env_ok)
        (new_alert_manager env_ok)
        (collect_posts env_ok) (process_posts env_ok) (process_alerts env_ok)
        (connect_fault env_ok)
        (fun _ st =>
           match st with
           | InsertMetric _ _ _ =>
               Some (mkExn "OperationalError"
                       "server closed the connection unexpectedly")
           | _ => None
           end)
        (commit_fault env_ok)
        (fun _ => Some (mkExn "InterfaceError" "connection already closed")).

(** * Properties of the database handler *)

Open Scope list_scope.

Section DatabaseFacts.

Variable env : Env.

Lemma keeps_frame_ret A (a : A) : keeps_frame (ret a).
Proof. intros f r f' H. inversion H; subst. tauto. Qed.

Lemma keeps_frame_raise A (e : exn) : keeps_frame (@raise Frame A e).
Proof. intros f r f' H. inversion H; subst. tauto. Qed.

Lemma keeps_frame_bind A B (m : M Frame A) (k : A -> M Frame B) :
  keeps_frame m -> (forall a, keeps_frame (k a)) -> keeps_frame (bind m k).
Proof.
  intros Hm Hk f r f' H. unfold bind in H.
  destruct (m f) as [[a|e] f1] eqn:E.
  - destruct (Hm _ _ _ E) as [U1 N1]. destruct (Hk a _ _ _ H) as [U2 N2].
    split; [congruence | tauto].
  - inversion H; subst. exact (Hm _ _ _ E).
Qed.

Lemma keeps_frame_db_logger l m a : keeps_frame (sys_op (db_logger l m a)).
Proof. intros f r f' H. inversion H; subst. simpl. tauto. Qed.

Lemma keeps_frame_time : keeps_frame (sys_op (time_time env)).
Proof. intros f r f' H. inversion H; subst. simpl. tauto. Qed.

Lemma keeps_frame_execute cur st : keeps_frame (execute env cur st).
Proof.
  intros [s c] r f' H. unfold execute in H. simpl in H.
  destruct c as [c|]; [|inversion H; subst; simpl; tauto].
  destruct (constraint_violation (pending c) st);
    [inversion H; subst; simpl; tauto|].
  destruct (exec_fault env (pending c) st);
    [inversion H; subst; simpl; tauto|].
  destruct st; try destruct (has_post_id (pending c) (unwrap (post_id p)));
    inversion H; subst; simpl; intuition congruence.
Qed.

Lemma keeps_frame_execute_batch sts :
  forall cur, keeps_frame (execute_batch env cur sts).
Proof.
  induction sts as [|st rest IH]; intros cur; simpl.
  - apply keeps_frame_ret.
  - apply keeps_frame_bind; [apply keeps_frame_execute | exact IH].
Qed.

Lemma keeps_frame_commit : keeps_frame (commit env).
Proof.
  intros [s c] r f' H. unfold commit in H. simpl in H.
  destruct c as [c|]; [|inversion H; subst; simpl; tauto].
  destruct (commit_fault env (pending c)); inversion H; subst; simpl; tauto.
Qed.

Lemma keeps_frame_rollback : keeps_frame (rollback_if_conn env).
Proof.
  intros [s c] r f' H. unfold rollback_if_conn in H. simpl in H.
  destruct c as [c|]; [destruct (rollback_fault env (pending c))|];
    inversion H; subst; simpl; intuition congruence.
Qed.

Create HintDb frame.

#[local] Hint Resolve keeps_frame_ret keeps_frame_raise keeps_frame_db_logger
  keeps_frame_time keeps_frame_execute keeps_frame_execute_batch
  keeps_frame_commit keeps_frame_rollback : frame.

Ltac frame :=
  repeat first
    [ apply keeps_frame_bind; [|intros ?]
    | solve [auto with frame]
    | match goal with
      | |- keeps_frame (match ?x with _ => _ end) => destruct x
      end ].

Lemma get_connection_cases s :
  (exists e, get_connection env s = (Raise e, s)) \/
  (exists idle,
      get_connection env s
      = (Ok (mkConn (tables s)), with_pool idle (S (pool_used s)) s)).
Proof.
  unfold get_connection.
  destruct (pool_idle s) as [|n].
  - destruct (Nat.eqb (pool_used s) maxconn); [left; eauto|].
    destruct (connect_fault env s); [left; eauto | right; eauto].
  - right; eauto.
Qed.

Lemma return_if_conn_spec f :
  exists s',
    return_if_conn f = (Ok tt, (s', snd f)) /\
    tables s' = tables (fst f) /\
    pool_used s' = match snd f with
                   | Some _ => Nat.pred (pool_used (fst f))
                   | None => pool_used (fst f)
                   end.
Proof.
  destruct f as [s [c|]]; unfold return_if_conn; simpl.
  - eexists; split; [reflexivity|]. simpl. auto.
  - eexists; split; [reflexivity|]. auto.
Qed.

(** The shape shared by the six methods: a connection taken at the head
    of the [try] block is given back by the [finally] block whatever the
    rest of the block and the [except] block do. *)
Lemma method_releases A (rest : M Frame A) (handler : exn -> M Frame A) :
  keeps_frame rest -> (forall e, keeps_frame (handler e)) ->
  forall s,
    pool_used
      (snd (method (try_finally (try_except (acquire env ;; rest) handler)
                                (return_if_conn)) s))
    = pool_used s.
Proof.
  intros Hr Hh s.
  unfold method, try_finally, try_except, bind, acquire. simpl.
  destruct (get_connection_cases s) as [[e G]|[idle G]]; rewrite G.
  - destruct (handler e (s, None)) as [r f1] eqn:E1.
    destruct (Hh _ _ _ _ E1) as [U1 [_ N1]]. simpl in *.
    destruct (return_if_conn_spec f1) as [s' [R [_ U]]]. rewrite R.
    rewrite (N1 eq_refl) in U. simpl. congruence.
  - destruct (rest _) as [r1 f1] eqn:E1.
    destruct (Hr _ _ _ E1) as [U1 N1]. simpl in *.
    destruct r1 as [a|e].
    + destruct (return_if_conn_spec f1) as [s' [R [_ U]]]. rewrite R. simpl.
      destruct (snd f1); [rewrite U, U1; reflexivity|].
      destruct N1 as [N1 _]. specialize (N1 eq_refl). discriminate.
    + destruct (handler e f1) as [r2 f2] eqn:E2.
      destruct (Hh _ _ _ _ E2) as [U2 N2].
      destruct (return_if_conn_spec f2) as [s' [R [_ U]]]. rewrite R. simpl.
      destruct (snd f2).
      * rewrite U, U2, U1. reflexivity.
      * destruct N2 as [N2 _]. specialize (N2 eq_refl).
        destruct N1 as [N1 _]. specialize (N1 N2). discriminate.
Qed.

(** C7: every method of the handler that takes a connection from the pool
    gives it back on every exit path.  Whatever the environment does (no
    connection available, a failing statement, a failing commit), the
    number of connections in use after a call of [init_schema],
    [insert_raw_posts], [insert_processed_posts], [insert_alert],
    [record_metric] or [get_unacknowledged_alerts] is the number in use
    before the call. *)
Theorem C7_connection_released_on_every_path (s : Sys) :
  pool_used (snd (init_schema env s)) = pool_used s /\
  (forall posts, pool_used (snd (insert_raw_posts env posts s)) = pool_used s) /\
  (forall posts mv,
      pool_used (snd (insert_processed_posts env posts mv s)) = pool_used s) /\
  (forall pid ty sev m rs,
      pool_used (snd (insert_alert env pid ty sev m rs s)) = pool_used s) /\
  (forall n v md, pool_used (snd (record_metric env n v md s)) = pool_used s) /\
  pool_used (snd (get_unacknowledged_alerts env s)) = pool_used s.
Proof.
  repeat split; intros;
    unfold init_schema, insert_raw_posts, insert_raw_posts_frame,
      insert_processed_posts, insert_alert, record_metric,
      get_unacknowledged_alerts;
    apply method_releases; intros; frame.
Qed.

(** *** Transactions *)

Lemma keeps_tables_ret A (a : A) : keeps_tables (ret a).
Proof. intros f r f' H. inversion H; subst. reflexivity. Qed.

Lemma keeps_tables_raise A (e : exn) : keeps_tables (@raise Frame A e).
Proof. intros f r f' H. inversion H; subst. reflexivity. Qed.

Lemma keeps_tables_bind A B (m : M Frame A) (k : A -> M Frame B) :
  keeps_tables m -> (forall a, keeps_tables (k a)) -> keeps_tables (bind m k).
Proof.
  intros Hm Hk f r f' H. unfold bind in H.
  destruct (m f) as [[a|e] f1] eqn:E.
  - rewrite (Hk a _ _ _ H). exact (Hm _ _ _ E).
  - inversion H; subst. exact (Hm _ _ _ E).
Qed.

Lemma keeps_tables_db_logger l m a : keeps_tables (sys_op (db_logger l m a)).
Proof. intros f r f' H. inversion H; subst. reflexivity. Qed.

Lemma keeps_tables_execute cur st : keeps_tables (execute env cur st).
Proof.
  intros [s c] r f' H. unfold execute in H. simpl in H.
  destruct c as [c|]; [|inversion H; subst; reflexivity].
  destruct (constraint_violation (pending c) st);
    [inversion H; subst; reflexivity|].
  destruct (exec_fault env (pending c) st);
    [inversion H; subst; reflexivity|].
  destruct st; try destruct (has_post_id (pending c) (unwrap (post_id p)));
    inversion H; subst; reflexivity.
Qed.

Lemma keeps_tables_execute_batch sts :
  forall cur, keeps_tables (execute_batch env cur sts).
Proof.
  induction sts as [|st rest IH]; intros cur; simpl.
  - apply keeps_tables_ret.
  - apply keeps_tables_bind; [apply keeps_tables_execute | exact IH].
Qed.

Lemma keeps_tables_rollback : keeps_tables (rollback_if_conn env).
Proof.
  intros [s c] r f' H. unfold rollback_if_conn in H. simpl in H.
  destruct c as [c|]; [destruct (rollback_fault env (pending c))|];
    inversion H; subst; reflexivity.
Qed.

Lemma keeps_tables_acquire : keeps_tables (acquire env).
Proof.
  intros [s c] r f' H. unfold acquire in H. simpl in H.
  destruct (get_connection_cases s) as [[e G]|[idle G]]; rewrite G in H;
    inversion H; subst; reflexivity.
Qed.

Lemma execute_batch_app l1 l2 : forall cur f,
  execute_batch env cur (l1 ++ l2) f =
  match execute_batch env cur l1 f with
  | (Ok cur', f') => execute_batch env cur' l2 f'
  | (Raise e, f') => (Raise e, f')
  end.
Proof.
  induction l1 as [|st l1 IH]; intros cur f; simpl.
  - reflexivity.
  - unfold bind. destruct (execute env cur st f) as [[cur'|e] f']; auto.
Qed.

(** A statement that raises leaves the frame as it was. *)
Lemma execute_raise cur st f e f' :
  execute env cur st f = (Raise e, f') -> f' = f.
Proof.
  destruct f as [s c]. unfold execute. simpl.
  destruct c as [c|]; [|intros H; inversion H; reflexivity].
  destruct (constraint_violation (pending c) st);
    [intros H; inversion H; reflexivity|].
  destruct (exec_fault env (pending c) st);
    [intros H; inversion H; reflexivity|].
  destruct st; try destruct (has_post_id (pending c) (unwrap (post_id p)));
    discriminate.
Qed.

(** The [except] block that logs, rolls back and re-raises, followed by
    the [finally] block: an exception goes on to the caller, the committed
    tables stay, and a connection that was taken is given back.  When the
    rollback succeeds the connection has no pending write left and the
    exception is the one that was caught; when the rollback raises, its
    exception takes the place of the one that was caught. *)
Lemma reraise_and_release A (m : string) (e : exn) (f : Frame) :
  exists e' f',
    (let (r, f1) := (sys_op (db_logger ERROR m [VStr (exn_str e)]) ;;
                     rollback_if_conn env ;; @raise Frame A e) f in
     match return_if_conn f1 with
     | (Ok _, f2) => (r, f2)
     | (Raise e2, f2) => (Raise e2, f2)
     end) = (Raise e', f') /\
    tables (fst f') = tables (fst f) /\
    pool_used (fst f') = match snd f with
                         | Some _ => Nat.pred (pool_used (fst f))
                         | None => pool_used (fst f)
                         end /\
    match snd f with
    | None => e' = e /\ snd f' = None
    | Some c =>
        match rollback_fault env (pending c) with
        | None => e' = e /\ snd f' = Some (mkConn (tables (fst f)))
        | Some e2 => e' = e2 /\ snd f' = Some c
        end
    end.
Proof.
  destruct f as [s [c|]]; unfold bind, sys_op, db_logger, modify,
    rollback_if_conn, raise, return_if_conn, return_connection; simpl.
  - destruct (rollback_fault env (pending c)) as [e2|]; simpl;
      do 2 eexists; (split; [reflexivity|]); simpl; auto.
  - do 2 eexists. split; [reflexivity|]. simpl. auto.
Qed.

(** C4 (as the code has it): when a record of a raw-post batch makes its
    statement fail (a constraint violation or any other error of the
    server, the conflict on [post_id] apart, which is skipped and raises
    nothing), [insert_raw_posts] commits nothing of the batch: the
    committed tables are as they were, the connection is given back, and
    an exception reaches the caller.  When [conn.rollback()] succeeds, the
    connection that goes back to the pool has lost what the statements
    before the failing one had written, and the exception is the one of
    the failing statement, re-raised as it is by the bare [raise]: the
    handler defines no exception class of its own and wraps nothing.
    (When [conn.rollback()] raises, its exception is the one that reaches
    the caller.) *)
Theorem C4_failing_batch_is_rolled_back
    (pre suf : list RawPost) (bad : RawPost) (s s1 s2 : Sys) (c c2 : Conn)
    (cur : Cursor) (f1 : Frame) (e : exn) :
  get_connection env s = (Ok c, s1) ->
  execute_batch env cursor (map InsertRaw pre) (s1, Some c) = (Ok cur, f1) ->
  execute env cur (InsertRaw bad) f1 = (Raise e, (s2, Some c2)) ->
  exists e' f',
    insert_raw_posts_frame env (pre ++ bad :: suf) (s, None) = (Raise e', f') /\
    insert_raw_posts env (pre ++ bad :: suf) s = (Raise e', fst f') /\
    tables (fst f') = tables s /\
    pool_used (fst f') = pool_used s /\
    (rollback_fault env (pending c2) = None ->
     e' = e /\ snd f' = Some (mkConn (tables s))) /\
    (forall e2, rollback_fault env (pending c2) = Some e2 -> e' = e2).
Proof.
  intros G B X.
  assert (F2 : (s2, Some c2) = f1) by (eapply execute_raise; eauto).
  subst f1.
  destruct (keeps_frame_execute_batch _ _ _ _ _ B) as [U1 _].
  pose proof (keeps_tables_execute_batch _ _ _ _ _ B) as T1.
  simpl in U1, T1.
  assert (S1 : tables s1 = tables s /\ pool_used s1 = S (pool_used s)).
  { destruct (get_connection_cases s) as [[e0 G0]|[idle G0]];
      rewrite G0 in G; inversion G; subst; simpl; auto. }
  destruct S1 as [T0 U0].
  destruct (reraise_and_release Z "Error inserting raw posts: {}" e
              (s2, Some c2)) as [e' [f' [R [T [U K]]]]].
  simpl in T, U, K.
  assert (E : insert_raw_posts_frame env (pre ++ bad :: suf) (s, None)
              = (Raise e', f')).
  { unfold insert_raw_posts_frame, try_finally, try_except.
    unfold bind at 1. unfold acquire at 1. simpl fst. rewrite G.
    unfold bind at 1. rewrite map_app. simpl map.
    rewrite execute_batch_app, B. simpl execute_batch.
    unfold bind at 1. rewrite X.
    rewrite R. reflexivity. }
  exists e', f'. split; [exact E|]. split; [|split; [|split; [|split]]].
  - unfold insert_raw_posts, method. rewrite E. reflexivity.
  - congruence.
  - rewrite U, U1, U0. reflexivity.
  - intros Q. rewrite Q in K. destruct K as [K1 K2].
    split; [exact K1|]. rewrite K2. congruence.
  - intros e2 Q. rewrite Q in K. destruct K as [K1 _]. exact K1.
Qed.

(** A method whose [except] block returns normally returns normally. *)
Lemma swallowing_method_total A (body : M Frame A)
    (handler : exn -> M Frame A) :
  (forall e, total (handler e)) ->
  total (method (try_finally (try_except body handler) return_if_conn)).
Proof.
  intros Hh s. unfold method, try_finally, try_except.
  destruct (body (s, None)) as [[a|e] f1].
  - destruct (return_if_conn_spec f1) as [s' [R _]]. rewrite R. eauto.
  - destruct (Hh e f1) as [a [f2 E]]. rewrite E.
    destruct (return_if_conn_spec f2) as [s' [R _]]. rewrite R. eauto.
Qed.

(** Where the rollback does not fail, [record_metric] swallows whatever
    its [try] block raises. *)
Lemma record_metric_returns name value md s :
  (forall t, rollback_fault env t = None) ->
  exists s', record_metric env name value md s = (Ok tt, s').
Proof.
  intros Hr.
  destruct (swallowing_method_total unit
              (acquire env ;;
               _ <- execute env cursor
                      (InsertMetric name value (metadata_or_empty md)) ;;
               commit env)
              (fun e =>
                 sys_op (db_logger ERROR "Error recording metric: {}"
                                   [VStr (exn_str e)]) ;;
                 rollback_if_conn env)) with (s := s) as [[] [s' E]].
  - intros e [s0 [c|]]; unfold bind, sys_op, db_logger, modify,
      rollback_if_conn; simpl; rewrite ?Hr; eauto.
  - exists s'. exact E.
Qed.

(** A failing [record_metric] changes no table. *)
Lemma record_metric_tables name value md s :
  tables (snd (record_metric env name value md s)) = tables s \/
  tables (snd (record_metric env name value md s))
  = add_metric (mkMetricRow name value (metadata_or_empty md)) (tables s).
Proof.
  unfold record_metric, method, try_finally, try_except, bind, acquire.
  simpl.
  destruct (get_connection_cases s) as [[e G]|[idle G]]; rewrite G; simpl.
  - left. reflexivity.
  - unfold execute. simpl.
    unfold rollback_if_conn.
    destruct (exec_fault env (tables s) _); simpl.
    { destruct (rollback_fault env _); simpl; left; reflexivity. }
    unfold commit. simpl.
    destruct (commit_fault env _); simpl; [|right; reflexivity].
    destruct (rollback_fault env _); simpl; left; reflexivity.
Qed.

(** Whatever a call of [record_metric] does, it commits the metric row or
    changes no table. *)
Lemma record_metric_cases name value md s :
  exists r s',
    record_metric env name value md s = (r, s') /\
    (tables s' = tables s \/
     tables s' = add_metric (mkMetricRow name value (metadata_or_empty md))
                            (tables s)).
Proof.
  pose proof (record_metric_tables name value md s) as T.
  destruct (record_metric env name value md s) as [r s']. eauto.
Qed.

(** *** What [insert_raw_posts] does to the tables and what it returns *)

Lemma insert_raw_posts_cases posts s r s' :
  insert_raw_posts env posts s = (r, s') ->
  match r with
  | Raise _ => tables s' = tables s
  | Ok n =>
      exists c s1 cur s2 c2,
        get_connection env s = (Ok c, s1) /\
        pending c = tables s /\
        execute_batch env cursor (map InsertRaw posts) (s1, Some c)
        = (Ok cur, (s2, Some c2)) /\
        n = rowcount cur /\
        tables s' = pending c2
  end.
Proof.
  unfold insert_raw_posts, insert_raw_posts_frame, method, try_finally,
    try_except.
  unfold bind at 1. unfold acquire at 1. simpl fst.
  destruct (get_connection_cases s) as [[e0 G]|[idle G]]; rewrite G.
  - unfold bind, sys_op, db_logger, modify, rollback_if_conn, raise,
      return_if_conn. simpl. intros H; inversion H; subst. reflexivity.
  - unfold bind at 1.
    destruct (execute_batch env cursor (map InsertRaw posts) _)
      as [[cur|e1] [s2 c2]] eqn:B.
    + pose proof (keeps_tables_execute_batch _ _ _ _ _ B) as T.
      destruct (keeps_frame_execute_batch _ _ _ _ _ B) as [_ N].
      simpl in T, N. destruct c2 as [c2|];
        [|destruct N as [N _]; specialize (N eq_refl); discriminate].
      unfold bind, commit, sys_op, db_logger, modify, rollback_if_conn, raise,
          ret, return_if_conn, return_connection. simpl.
      destruct (commit_fault env (pending c2)); simpl;
        [destruct (rollback_fault env (pending c2)); simpl|];
        intros H; inversion H; subst; clear H; simpl.
      * exact T.
      * exact T.
      * do 5 eexists. split; [reflexivity|]. split; [reflexivity|].
        split; [exact B|]. split; reflexivity.
    + pose proof (keeps_tables_execute_batch _ _ _ _ _ B) as T.
      simpl in T.
      unfold bind, sys_op, db_logger, modify, rollback_if_conn, raise,
        return_if_conn, return_connection. simpl.
      destruct c2 as [c2|]; simpl;
        [destruct (rollback_fault env (pending c2)); simpl|];
        intros H; inversion H; subst; simpl; exact T.
Qed.

(** Either the whole batch is committed or no table changes. *)
Lemma insert_raw_posts_atomic posts s e s' :
  insert_raw_posts env posts s = (Raise e, s') -> tables s' = tables s.
Proof. intros H. exact (insert_raw_posts_cases _ _ _ _ H). Qed.

Lemma execute_raw_rowcount cur p f cur' f' :
  execute env cur (InsertRaw p) f = (Ok cur', f') ->
  rowcount cur' = 0 \/ rowcount cur' = 1.
Proof.
  destruct f as [s [c|]]; unfold execute; simpl; [|discriminate].
  destruct (post_id p) as [id|]; [|discriminate].
  destruct (platform p); [|discriminate].
  destruct (exec_fault env (pending c) (InsertRaw p)); [discriminate|].
  simpl. destruct (has_post_id (pending c) id);
    intros H; inversion H; subst; simpl; auto.
Qed.

Lemma execute_batch_rowcount posts : forall cur f cur' f',
  execute_batch env cur (map InsertRaw posts) f = (Ok cur', f') ->
  rowcount cur' = rowcount cur \/ rowcount cur' = 0 \/ rowcount cur' = 1.
Proof.
  induction posts as [|p posts IH]; intros cur f cur' f' H; simpl in H.
  - inversion H; subst. auto.
  - unfold bind in H.
    destruct (execute env cur (InsertRaw p) f) as [[cur1|e] f1] eqn:E;
      [|discriminate].
    apply execute_raw_rowcount in E.
    destruct (IH _ _ _ _ H) as [Q|Q]; [rewrite Q|]; tauto.
Qed.

(** The value returned is the count of one statement, whatever the number
    of rows the batch inserted. *)
Lemma insert_raw_posts_count_range posts s n s' :
  insert_raw_posts env posts s = (Ok n, s') -> n = -1 \/ n = 0 \/ n = 1.
Proof.
  intros H. apply insert_raw_posts_cases in H.
  destruct H as [c [s1 [cur [s2 [c2 [_ [_ [B [E _]]]]]]]]].
  subst n. apply execute_batch_rowcount in B. exact B.
Qed.

Lemma has_post_id_false t id :
  has_post_id t id = false -> ~ In (Some id) (stored_ids t).
Proof.
  unfold has_post_id, stored_ids. intros H I.
  apply in_map_iff in I. destruct I as [r [E I]].
  assert (X : existsb (fun r => opt_string_eqb (post_id r) id) (raw_posts t)
              = true).
  { apply existsb_exists. exists r. split; [exact I|]. rewrite E. simpl.
    apply String.eqb_refl. }
  congruence.
Qed.

Lemma execute_raw_unique cur p f cur' f' :
  execute env cur (InsertRaw p) f = (Ok cur', f') ->
  pending_unique f -> pending_unique f'.
Proof.
  destruct f as [s [c|]]; unfold execute; simpl; [|discriminate].
  destruct (post_id p) as [id|] eqn:Ep; [|discriminate].
  destruct (platform p); [|discriminate].
  destruct (exec_fault env (pending c) (InsertRaw p)); [discriminate|].
  simpl. destruct (has_post_id (pending c) id) eqn:Hh.
  - intros H; inversion H; subst. auto.
  - intros H; inversion H; subst. unfold pending_unique. simpl.
    intros U. unfold stored_ids, add_raw. simpl. rewrite map_app. simpl.
    rewrite Ep. apply NoDup_app; [exact U | repeat constructor; simpl; tauto |].
    intros a Ia Ib. destruct Ib as [Ib|[]]. subst a.
    apply has_post_id_false in Hh. contradiction.
Qed.

Lemma execute_batch_raw_unique posts : forall cur f cur' f',
  execute_batch env cur (map InsertRaw posts) f = (Ok cur', f') ->
  pending_unique f -> pending_unique f'.
Proof.
  induction posts as [|p posts IH]; intros cur f cur' f' H U; simpl in H.
  - inversion H; subst. exact U.
  - unfold bind in H.
    destruct (execute env cur (InsertRaw p) f) as [[cur1|e] f1] eqn:E;
      [|discriminate].
    eapply IH; eauto. eapply execute_raw_unique; eauto.
Qed.

(** A post whose identifier is stored is skipped: identifiers that are
    unique in [raw_posts] before a call are unique after it. *)
Lemma insert_raw_posts_keeps_ids_unique posts s :
  NoDup (stored_ids (tables s)) ->
  NoDup (stored_ids (tables (snd (insert_raw_posts env posts s)))).
Proof.
  intros U.
  destruct (insert_raw_posts env posts s) as [[n|e] s'] eqn:H;
    apply insert_raw_posts_cases in H; simpl.
  - destruct H as [c [s1 [cur [s2 [c2 [_ [P [B [_ T]]]]]]]]].
    apply execute_batch_raw_unique in B.
    + unfold pending_unique in B. simpl in B. rewrite T. exact B.
    + unfold pending_unique. simpl. rewrite P. exact U.
  - rewrite H. exact U.
Qed.
End DatabaseFacts.

(** C3: [insert_raw_posts] skips a post whose identifier is stored, but
    the value it returns is [cursor.rowcount] after [execute_batch], the
    count of the last statement only.  Two new posts are both stored and
    the call returns 1; the same batch again changes nothing and returns 0;
    an empty batch returns -1. *)
Theorem C3_insert_raw_posts_returns_last_rowcount :
  exists s1 s2 s3,
    insert_raw_posts env_ok [post_a; post_b] sys0 = (Ok 1, s1) /\
    raw_posts (tables s1) = [post_a; post_b] /\
    insert_raw_posts env_ok [post_a; post_b] s1 = (Ok 0, s2) /\
    raw_posts (tables s2) = [post_a; post_b] /\
    insert_raw_posts env_ok [] sys0 = (Ok (-1), s3).
Proof.
  do 3 eexists. repeat split; vm_compute; reflexivity.
Qed.

(** The batch [a; malformed; b] on an empty database: the statement of
    the post without identifier fails after [a] was written inside the
    transaction; the rollback discards it. *)
Lemma C4_witness :
  exists e' f',
    insert_raw_posts_frame env_ok [post_a; post_malformed; post_b] (sys0, None)
    = (Raise e', f') /\
    insert_raw_posts env_ok [post_a; post_malformed; post_b] sys0
    = (Raise e', fst f') /\
    tables (fst f') = tables0 /\
    pool_used (fst f') = 0%nat /\
    e' = mkExn "NotNullViolation"
               "null value in column post_id violates not-null constraint" /\
    snd f' = Some (mkConn tables0).
Proof.
  destruct (C4_failing_batch_is_rolled_back env_ok [post_a] [post_b]
              post_malformed sys0 _ _ _ _ _ _ _ eq_refl eq_refl eq_refl)
    as [e' [f' [E [R [T [U [K _]]]]]]].
  destruct (K eq_refl) as [K1 K2].
  exists e', f'. repeat split; assumption.
Defined.

(** C4 as the specification words it: the exception that reaches the
    caller would be a [StorageError].  On the batch above it is the
    [NotNullViolation] of the failing statement. *)
Lemma C4_counterexample :
  exists e s',
    insert_raw_posts env_ok [post_a; post_malformed; post_b] sys0
    = (Raise e, s') /\
    tables s' = tables sys0 /\
    exn_type e = "NotNullViolation" /\
    exn_type e <> "StorageError".
Proof.
  do 2 eexists. split; [vm_compute; reflexivity|].
  split; [reflexivity|]. split; [reflexivity|]. discriminate.
Qed.

(** * Properties of the metrics and of the orchestrator *)

Lemma dict_get_set_same V (k : string) (v : V) (d : list (string * V)) :
  dict_get k (dict_set k v d) = Some v.
Proof.
  induction d as [|[k' v'] d IH]; simpl.
  - rewrite String.eqb_refl. reflexivity.
  - destruct (String.eqb k' k) eqn:E; simpl.
    + rewrite String.eqb_refl. reflexivity.
    + rewrite E. exact IH.
Qed.

Lemma for_each_logger X (xs : list X) lv (m : string) (a : X -> list pyval) :
  forall w,
    for_each xs (fun x => logger lv m (a x)) w
    = (Ok tt, with_log (log w ++ map (fun x => mkLog lv m (a x)) xs) w).
Proof.
  induction xs as [|x xs IH]; intros w; simpl.
  - rewrite app_nil_r. destruct w; reflexivity.
  - unfold bind. unfold logger at 1. unfold modify. rewrite IH.
    simpl. rewrite <- app_assoc. reflexivity.
Qed.

Lemma _print_summary_eq w :
  _print_summary w
  = (Ok tt, mkWorld (sys w) (metrics w)
                    (log w ++ summary_lines (get_summary (metrics w)))
                    (Some (get_summary (metrics w)))).
Proof.
  unfold _print_summary, summary_lines. unfold bind, get.
  unfold logger at 1 2 3 4 5 6 7 8 9 10.
  unfold modify at 1 2 3 4 5 6 7 8 9 10.
  rewrite for_each_logger.
  destruct (sum_errors (get_summary (metrics w))) eqn:E.
  - unfold ret, logger, modify. simpl. rewrite <- !app_assoc. reflexivity.
  - unfold logger at 1. unfold modify at 1. rewrite for_each_logger.
    unfold ret, logger, modify. simpl. rewrite <- !app_assoc. reflexivity.
Qed.

Lemma forallb_map_const X (P : LogRecord -> bool) (f : X -> LogRecord) xs :
  (forall x, P (f x) = true) -> forallb P (map f xs) = true.
Proof.
  intros H. induction xs; simpl; [reflexivity|]. rewrite H, IHxs. reflexivity.
Qed.

Lemma summary_lines_quiet summary :
  forallb (quiet [STAGE_2; STAGE_3; STAGE_4; STAGE_5]) (summary_lines summary)
  = true.
Proof.
  unfold summary_lines. rewrite !forallb_app.
  rewrite forallb_map_const by reflexivity.
  destruct (sum_errors summary).
  - reflexivity.
  - change (forallb ?P (?x :: ?l)) with (P x && forallb P l).
    rewrite forallb_map_const by reflexivity. reflexivity.
Qed.

Lemma summary_lines_banner summary :
  In (mkLog INFO SUMMARY_BANNER []) (summary_lines summary).
Proof. unfold summary_lines. simpl. auto. Qed.

Arguments dict_get : simpl never.
Arguments dict_set : simpl never.
Arguments String.append : simpl never.

Section PipelineFacts.

Variable env : Env.

Lemma run_finally_eq w : run_finally env w = (Ok tt, finalized env w).
Proof.
  unfold run_finally, bind, now, lift_sys, time_time, update_metrics, modify.
  simpl. rewrite _print_summary_eq. reflexivity.
Qed.

(** [run] is its [try]/[except] part followed by the [finally] block: the
    outcome is the outcome of the former, the world is finalized. *)
Lemma run_eq config w :
  run env config w
  = (fst (try_except (run_body env config) (run_except env)
                     (snd (run_begin env w))),
     finalized env
       (snd (try_except (run_body env config) (run_except env)
                        (snd (run_begin env w))))).
Proof.
  unfold run. unfold bind at 1.
  assert (B : exists w', run_begin env w = (Ok tt, w')).
  { unfold run_begin, bind, logger, modify, now, lift_sys, time_time,
      update_metrics, modify. simpl. eauto. }
  destruct B as [w' B]. rewrite B. simpl snd.
  unfold try_finally.
  destruct (try_except (run_body env config) (run_except env) w') as [r w1].
  rewrite run_finally_eq. reflexivity.
Qed.

Ltac run_prims :=
  unfold logger, start_stage, end_stage, add_error, item, outcome, fault in *;
  unfold update_metrics, now in *;
  unfold lift_sys, time_time in *;
  unfold bind, try_finally, try_except, modify, get, ret, raise in *.

Ltac log_tail :=
  simpl; rewrite <- ?app_assoc; simpl; eexists; split; reflexivity.
Ltac leaf :=
  rewrite ?dict_get_set_same;
  let H := fresh in
  intros H; inversion H; subst; clear H; simpl; repeat split; try log_tail.
Ltac log_tail1 :=
  simpl; rewrite <- ?app_assoc; simpl; eexists; reflexivity.
Ltac log_tail2 :=
  simpl; rewrite <- ?app_assoc; simpl; reflexivity.

Lemma _collect_data_effect config w r w' :
  _collect_data env config w = (r, w') ->
  tables (sys w') = tables (sys w) /\
  posts_processed (metrics w') = posts_processed (metrics w) /\
  (exists l, log w' = log w ++ l /\
             forallb (quiet [STAGE_2; STAGE_3; STAGE_4; STAGE_5]) l = true) /\
  match r with
  | Ok posts => errors (metrics w') = errors (metrics w) /\
                posts_collected (metrics w') = len posts
  | Raise e => exists t, errors (metrics w')
                         = errors (metrics w) ++ [mkError "collection" (exn_str e) t]
  end.
Proof.
  destruct w as [sy me lo sf]. unfold _collect_data. run_prims. simpl.
  destruct (monitoring config) as [m|]; simpl; [|leaf].
  destruct (keywords m); simpl; [|leaf].
  destruct (subreddits m); simpl; [|leaf].
  destruct (collect_posts env _ _ _ _) as [posts|e]; simpl; leaf.
Qed.

Lemma _process_data_effect raw w r w' :
  _process_data env raw w = (r, w') ->
  tables (sys w') = tables (sys w) /\
  posts_collected (metrics w') = posts_collected (metrics w) /\
  (exists l, log w' = log w ++ l /\
             forallb (quiet [STAGE_3; STAGE_4; STAGE_5]) l = true) /\
  match r with
  | Ok posts => errors (metrics w') = errors (metrics w)
  | Raise e => exists t, errors (metrics w')
                         = errors (metrics w) ++ [mkError "processing" (exn_str e) t]
  end.
Proof.
  destruct w as [sy me lo sf]. unfold _process_data. run_prims. simpl.
  destruct (process_posts env raw) as [posts|e]; simpl; leaf.
Qed.

Lemma _store_data_effect config raw proc w r w' :
  _store_data env config raw proc w = (r, w') ->
  (exists l, log w' = log w ++ l /\
             forallb (quiet [STAGE_4; STAGE_5]) l = true) /\
  match r with
  | Ok posts => errors (metrics w') = errors (metrics w)
  | Raise e => exists t, errors (metrics w')
                         = errors (metrics w) ++ [mkError "storage" (exn_str e) t]
  end.
Proof.
  destruct w as [sy me lo sf]. unfold _store_data. run_prims. simpl.
  destruct (insert_raw_posts env raw _) as [[n|e] s1]; simpl; [|leaf].
  destruct (ml config) as [m|]; simpl; [|leaf].
  destruct (insert_processed_posts env proc _ _) as [[n2|e] s2]; simpl; leaf.
Qed.

Lemma _generate_alerts_total config proc w :
  exists w', _generate_alerts env config proc w = (Ok tt, w') /\
             exists l, log w' = log w ++ mkLog INFO STAGE_4 [] :: l.
Proof.
  destruct w as [sy me lo sf].
  unfold _generate_alerts, _generate_alerts_begin, _generate_alerts_try.
  run_prims. simpl.
  destruct (alerts_cfg config) as [a|]; simpl.
  - destruct (process_alerts env proc _ _) as [[[]|e] s1]; simpl;
      rewrite ?dict_get_set_same; simpl; eexists; split; try reflexivity; log_tail1.
  - rewrite ?dict_get_set_same; simpl; eexists; split; try reflexivity; log_tail1.
Qed.

Lemma _generate_alerts_caught config proc w e w4 :
  _generate_alerts_try env config proc (snd (_generate_alerts_begin env w))
  = (Raise e, w4) ->
  exists w5 t,
    _generate_alerts env config proc w = (Ok tt, w5) /\
    errors (metrics w5)
    = errors (metrics w) ++ [mkError "alerts" (exn_str e) t].
Proof.
  destruct w as [sy me lo sf].
  unfold _generate_alerts, _generate_alerts_begin, _generate_alerts_try.
  run_prims. simpl.
  destruct (alerts_cfg config) as [a|]; simpl.
  - destruct (process_alerts env proc _ _) as [[[]|e'] s1]; simpl;
      intros H; inversion H; subst; clear H;
      rewrite ?dict_get_set_same; simpl; do 2 eexists; split; reflexivity.
  - intros H; inversion H; subst; clear H;
      rewrite ?dict_get_set_same; simpl; do 2 eexists; split; reflexivity.
Qed.

Lemma _record_metrics_effect w :
  exists w' l,
    _record_metrics env w = (Ok tt, w') /\
    metrics w' = metrics w /\
    summary_file w' = summary_file w /\
    log w' = log w ++ mkLog INFO STAGE_5 [] :: l.
Proof.
  destruct w as [sy me lo sf].
  unfold _record_metrics. run_prims. simpl.
  repeat match goal with
         | |- context [record_metric env ?n ?v ?md ?s] =>
             destruct (record_metric env n v md s) as [[[]|?] ?]; simpl
         end;
    do 2 eexists; (split; [reflexivity|]); simpl; repeat split; log_tail2.
Qed.

Lemma quiet_not_logged banners l banner :
  forallb (quiet banners) l = true -> In banner banners ->
  not_logged banner l.
Proof.
  intros Q B x Hx E. rewrite forallb_forall in Q. specialize (Q x Hx).
  unfold quiet in Q. apply negb_true_iff in Q.
  assert (T : existsb (String.eqb (msg x)) banners = true).
  { apply existsb_exists. exists banner. split; [exact B|].
    apply String.eqb_eq. exact E. }
  congruence.
Qed.

Lemma not_logged_app banner l1 l2 :
  not_logged banner l1 -> not_logged banner l2 -> not_logged banner (l1 ++ l2).
Proof.
  intros H1 H2 x Hx. apply in_app_or in Hx. destruct Hx; auto.
Qed.

Lemma run_begin_effect w :
  exists w',
    run_begin env w = (Ok tt, w') /\
    tables (sys w') = tables (sys w) /\
    errors (metrics w') = errors (metrics w) /\
    posts_collected (metrics w') = posts_collected (metrics w) /\
    posts_processed (metrics w') = posts_processed (metrics w) /\
    exists l, log w' = log w ++ l /\
              forallb (quiet [STAGE_2; STAGE_3; STAGE_4; STAGE_5]) l = true.
Proof.
  destruct w as [sy me lo sf]. unfold run_begin. run_prims. simpl.
  eexists. repeat split. log_tail.
Qed.

Lemma run_except_effect e w :
  exists w',
    run_except env e w = (Raise e, w') /\
    tables (sys w') = tables (sys w) /\
    errors (metrics w')
    = errors (metrics w)
        ++ [mkError "pipeline" (exn_str e) (clock env (ticks (sys w)))] /\
    exists l, log w' = log w ++ l /\
              forallb (quiet [STAGE_2; STAGE_3; STAGE_4; STAGE_5]) l = true.
Proof.
  destruct w as [sy me lo sf]. unfold run_except. run_prims. simpl.
  eexists. repeat split. log_tail.
Qed.

Lemma finalized_effect w :
  tables (sys (finalized env w)) = tables (sys w) /\
  summary_file (finalized env w) = Some (get_summary (metrics (finalized env w))) /\
  sum_errors (get_summary (metrics (finalized env w))) = errors (metrics w) /\
  sum_error_count (get_summary (metrics (finalized env w)))
  = len (errors (metrics w)) /\
  sum_posts_collected (get_summary (metrics (finalized env w)))
  = posts_collected (metrics w) /\
  sum_posts_processed (get_summary (metrics (finalized env w)))
  = posts_processed (metrics w) /\
  exists l, log (finalized env w) = log w ++ l /\
            forallb (quiet [STAGE_2; STAGE_3; STAGE_4; STAGE_5]) l = true.
Proof.
  unfold finalized. simpl. repeat split.
  eexists. split; [reflexivity|]. apply summary_lines_quiet.
Qed.

(** The constructor leaves fresh metrics. *)
Lemma SocialMonitoringPipeline_init_fresh config w w' :
  SocialMonitoringPipeline_init env config w = (Ok tt, w') ->
  metrics w' = PipelineMetrics_init.
Proof.
  destruct w as [sy me lo sf]. unfold SocialMonitoringPipeline_init.
  run_prims. simpl.
  destruct (new_collector env config); simpl; [discriminate|].
  destruct (new_ml_processor env config); simpl; [discriminate|].
  destruct (database_args env config); simpl; [discriminate|].
  destruct (DatabaseHandler_init env sy) as [[[]|e] s1]; simpl; [|discriminate].
  destruct (new_notifier env config); simpl; [discriminate|].
  destruct (new_alert_manager env config); simpl; [discriminate|].
  intros H; inversion H; subst. reflexivity.
Qed.

(** The exit code: 0 when [run] returns, 1 when it raises. *)
Lemma main_exit_code w config wa w0 r wf :
  load_config env w = (Ok config, wa) ->
  SocialMonitoringPipeline_init env config wa = (Ok tt, w0) ->
  run env config w0 = (r, wf) ->
  exists wm,
    main env w = (Ok match r with Ok _ => 0 | Raise _ => 1 end, wm).
Proof.
  intros L I R. unfold main, try_except. unfold bind at 1. rewrite L.
  unfold bind at 1. rewrite I. unfold bind at 1. rewrite R.
  destruct r as [[]|e].
  - eexists. reflexivity.
  - unfold bind, logger, modify, ret. simpl. eexists. reflexivity.
Qed.

(** The [try] block of [run] when a fatal stage raises. *)
Lemma run_body_fatal config w stage e w' :
  fatal_stage_raises env config w stage e w' ->
  run_body env config w = (Raise e, w') /\
  (exists t, errors (metrics w')
             = errors (metrics w) ++ [mkError stage (exn_str e) t]) /\
  (stage = "storage" ->
   exists l, log w' = log w ++ l /\
             forallb (quiet [STAGE_4; STAGE_5]) l = true).
Proof.
  intros F. destruct F as [e w1 C | raw w1 e w2 C N P | raw w1 proc w2 e w3 C N P N' S].
  - split; [|split].
    + unfold run_body. unfold bind at 1. rewrite C. reflexivity.
    + apply _collect_data_effect in C. tauto.
    + discriminate.
  - split; [|split].
    + unfold run_body. unfold bind at 1. rewrite C.
      destruct raw; [congruence|]. unfold bind at 1. rewrite P. reflexivity.
    + apply _collect_data_effect in C. apply _process_data_effect in P.
      destruct C as [_ [_ [_ [C _]]]]. destruct P as [_ [_ [_ [t P]]]].
      exists t. congruence.
    + discriminate.
  - split; [|split].
    + unfold run_body. unfold bind at 1. rewrite C.
      destruct raw; [congruence|]. unfold bind at 1. rewrite P.
      destruct proc; [congruence|]. unfold bind at 1. rewrite S. reflexivity.
    + apply _collect_data_effect in C. apply _process_data_effect in P.
      apply _store_data_effect in S.
      destruct C as [_ [_ [_ [C _]]]]. destruct P as [_ [_ [_ P]]].
      destruct S as [_ [t S]]. exists t. congruence.
    + intros _.
      apply _collect_data_effect in C. apply _process_data_effect in P.
      apply _store_data_effect in S.
      destruct C as [_ [_ [[l1 [C Q1]] _]]]. destruct P as [_ [_ [[l2 [P Q2]] _]]].
      destruct S as [[l3 [S Q3]] _].
      exists (l1 ++ l2 ++ l3). split.
      * rewrite S, P, C. rewrite <- !app_assoc. reflexivity.
      * rewrite !forallb_app. rewrite Q3.
        rewrite forallb_forall in Q1, Q2.
        assert (W1 : forallb (quiet [STAGE_4; STAGE_5]) l1 = true).
        { apply forallb_forall. intros x Hx. specialize (Q1 x Hx).
          unfold quiet in *. simpl in *.
          destruct (msg x =? STAGE_2)%string, (msg x =? STAGE_3)%string,
            (msg x =? STAGE_4)%string, (msg x =? STAGE_5)%string;
            simpl in *; congruence. }
        assert (W2 : forallb (quiet [STAGE_4; STAGE_5]) l2 = true).
        { apply forallb_forall. intros x Hx. specialize (Q2 x Hx).
          unfold quiet in *. simpl in *.
          destruct (msg x =? STAGE_3)%string,
            (msg x =? STAGE_4)%string, (msg x =? STAGE_5)%string;
            simpl in *; congruence. }
        rewrite W1, W2. reflexivity.
Qed.

(** C10: when a fatal stage (collection, processing or storage) raises in
    a run of a pipeline whose error list is empty, as the constructor
    leaves it, the one failure is recorded twice: the summary lists the
    error under the name of the stage and then under the name
    ['pipeline'], and its [error_count] is 2. *)
Theorem C10_fatal_failure_is_recorded_twice config w0 stage e w' :
  errors (metrics w0) = [] ->
  fatal_stage_raises env config (snd (run_begin env w0)) stage e w' ->
  exists wf sm t1 t2,
    run env config w0 = (Raise e, wf) /\
    summary_file wf = Some sm /\
    sum_errors sm = [mkError stage (exn_str e) t1;
                     mkError "pipeline" (exn_str e) t2] /\
    sum_error_count sm = 2.
Proof.
  intros E0 F.
  destruct (run_begin_effect w0) as [wb [B [_ [Eb _]]]].
  rewrite B in F. simpl in F.
  destruct (run_body_fatal _ _ _ _ _ F) as [Rb [[t1 Es] _]].
  destruct (run_except_effect e w') as [w4 [X [_ [Ex _]]]].
  destruct (finalized_effect w4) as [_ [Sf [Se [Sc _]]]].
  exists (finalized env w4), (get_summary (metrics (finalized env w4))),
    t1, (clock env (ticks (sys w'))).
  rewrite run_eq, B. simpl snd. unfold try_except. rewrite Rb, X. simpl fst.
  simpl snd. split; [reflexivity|]. split; [exact Sf|]. split.
  - rewrite Se, Ex, Es, Eb, E0. reflexivity.
  - rewrite Sc, Ex, Es, Eb, E0. reflexivity.
Qed.

(** C1: in every run of a loaded and constructed pipeline, if the storage
    stage is reached and raises, the run raises the same exception after
    the summary has been written; neither the alerting stage nor the
    metrics-recording stage is entered; the summary lists the error under
    ['storage'].  The exit code of the process is 0 exactly when [run]
    returns (a completed run or a no-op run) and non-zero when it raises. *)
Theorem C1_storage_failure_is_fatal w config wa w0 r wf :
  load_config env w = (Ok config, wa) ->
  SocialMonitoringPipeline_init env config wa = (Ok tt, w0) ->
  run env config w0 = (r, wf) ->
  (forall raw w1 proc w2 e w3,
      _collect_data env config (snd (run_begin env w0)) = (Ok raw, w1) ->
      raw <> [] ->
      _process_data env raw w1 = (Ok proc, w2) ->
      proc <> [] ->
      _store_data env config raw proc w2 = (Raise e, w3) ->
      r = Raise e /\
      (exists l, log wf = log w0 ++ l /\
                 not_logged STAGE_4 l /\ not_logged STAGE_5 l) /\
      exists sm t,
        summary_file wf = Some sm /\
        In (mkError "storage" (exn_str e) t) (sum_errors sm) /\
        1 <= sum_error_count sm) /\
  exists code wm,
    main env w = (Ok code, wm) /\ (code = 0 <-> r = Ok tt).
Proof.
  intros L I R. split.
  - intros raw w1 proc w2 e w3 C N P N' S.
    destruct (run_begin_effect w0) as [wb [B [_ [_ [_ [_ [lb [Lb Qb]]]]]]]].
    rewrite B in C. simpl in C.
    assert (F : fatal_stage_raises env config wb "storage" e w3)
      by (eapply storage_raises; eauto).
    destruct (run_body_fatal _ _ _ _ _ F) as [Rb [[t Es] Ls]].
    destruct (Ls eq_refl) as [ls [Ls' Qs]].
    destruct (run_except_effect e w3) as [w4 [X [_ [Ex [lx [Lx Qx]]]]]].
    destruct (finalized_effect w4) as [_ [Sf [Se [Sc [_ [_ [lf [Lf Qf]]]]]]]].
    rewrite run_eq, B in R. simpl snd in R. unfold try_except in R.
    rewrite Rb, X in R. simpl in R. inversion R; subst r wf; clear R.
    split; [reflexivity|]. split.
    + exists (lb ++ ls ++ lx ++ lf). split.
      * rewrite Lf, Lx, Ls', Lb. rewrite <- !app_assoc. reflexivity.
      * split; repeat apply not_logged_app;
          eapply quiet_not_logged; eauto; simpl; auto.
    + exists (get_summary (metrics (finalized env w4))), t.
      split; [exact Sf|]. rewrite Se, Sc, Ex, Es. split.
      * apply in_or_app. left. apply in_or_app. right. simpl. auto.
      * unfold len. rewrite !length_app. simpl. lia.
  - destruct (main_exit_code _ _ _ _ _ _ L I R) as [wm Hm].
    exists (match r with Ok _ => 0 | Raise _ => 1 end), wm.
    split; [exact Hm|]. destruct r as [[]|e]; split; congruence.
Qed.

(** C2: in every run of a loaded and constructed pipeline that reaches the
    alerting stage, an exception raised in the [try] block of that stage
    is caught there: [_generate_alerts] returns normally with the error
    appended to the error list under ['alerts']; the metrics-recording
    stage is entered afterwards, [run] returns normally, the summary
    lists the error and the exit code is 0. *)
Theorem C2_alert_failure_is_not_fatal
    w config wa w0 raw w1 proc w2 w3 e w4 :
  load_config env w = (Ok config, wa) ->
  SocialMonitoringPipeline_init env config wa = (Ok tt, w0) ->
  _collect_data env config (snd (run_begin env w0)) = (Ok raw, w1) ->
  raw <> [] ->
  _process_data env raw w1 = (Ok proc, w2) ->
  proc <> [] ->
  _store_data env config raw proc w2 = (Ok tt, w3) ->
  _generate_alerts_try env config proc (snd (_generate_alerts_begin env w3))
  = (Raise e, w4) ->
  exists w5 t wf sm wm,
    _generate_alerts env config proc w3 = (Ok tt, w5) /\
    errors (metrics w5)
    = errors (metrics w3) ++ [mkError "alerts" (exn_str e) t] /\
    run env config w0 = (Ok tt, wf) /\
    (exists l, log wf = log w5 ++ l /\ In (mkLog INFO STAGE_5 []) l) /\
    summary_file wf = Some sm /\
    In (mkError "alerts" (exn_str e) t) (sum_errors sm) /\
    main env w = (Ok 0, wm).
Proof.
  intros L I C N P N' S A.
  destruct (run_begin_effect w0) as [wb [B _]].
  rewrite B in C. simpl in C.
  destruct (_generate_alerts_caught _ _ _ _ _ A) as [w5 [t [G Eg]]].
  destruct (_record_metrics_effect w5) as [w6 [l6 [Rm [Mm [_ Lm]]]]].
  set (w7 := with_log (((log w6 ++ [mkLog INFO equals []])
                          ++ [mkLog INFO "PIPELINE COMPLETED SUCCESSFULLY" []])
                         ++ [mkLog INFO equals []]) w6).
  assert (Rb : run_body env config wb = (Ok tt, w7)).
  { unfold run_body. unfold bind at 1. rewrite C.
    destruct raw; [congruence|]. unfold bind at 1. rewrite P.
    destruct proc; [congruence|]. unfold bind at 1. rewrite S.
    unfold bind at 1. rewrite G. unfold bind at 1. rewrite Rm.
    unfold bind, logger, modify. simpl. reflexivity. }
  destruct (finalized_effect w7) as [_ [Sf [Se [_ [_ [_ [lf [Lf _]]]]]]]].
  assert (R : run env config w0 = (Ok tt, finalized env w7)).
  { rewrite run_eq, B. simpl snd. unfold try_except. rewrite Rb. reflexivity. }
  destruct (main_exit_code _ _ _ _ _ _ L I R) as [wm Hm].
  exists w5, t, (finalized env w7),
    (get_summary (metrics (finalized env w7))), wm.
  repeat split; auto.
  - eexists. split.
    + rewrite Lf. unfold w7. simpl log. rewrite Lm.
      rewrite <- !app_assoc. reflexivity.
    + simpl. auto.
  - rewrite Se. unfold w7. simpl metrics. rewrite Mm, Eg.
    apply in_or_app. right. simpl. auto.
Qed.

(** C5: in every run of a loaded and constructed pipeline in which the
    collection stage returns an empty list, [run] returns normally; the
    summary is written and shows [posts_collected = 0] and
    [posts_processed = 0]; no later stage is entered and the tables are
    untouched; the exit code is 0. *)
Theorem C5_zero_posts_is_a_successful_noop w config wa w0 w1 :
  load_config env w = (Ok config, wa) ->
  SocialMonitoringPipeline_init env config wa = (Ok tt, w0) ->
  _collect_data env config (snd (run_begin env w0)) = (Ok [], w1) ->
  exists wf sm wm,
    run env config w0 = (Ok tt, wf) /\
    summary_file wf = Some sm /\
    sum_posts_collected sm = 0 /\
    sum_posts_processed sm = 0 /\
    (exists l, log wf = log w0 ++ l /\
               not_logged STAGE_2 l /\ not_logged STAGE_3 l /\
               not_logged STAGE_4 l /\ not_logged STAGE_5 l) /\
    tables (sys wf) = tables (sys w0) /\
    main env w = (Ok 0, wm).
Proof.
  intros L I C.
  pose proof (SocialMonitoringPipeline_init_fresh _ _ _ I) as Fr.
  destruct (run_begin_effect w0) as [wb [B [Tb [_ [_ [Pb [lb [Lb Qb]]]]]]]].
  rewrite B in C. simpl in C.
  destruct (_collect_data_effect _ _ _ _ C)
    as [Tc [Pc [[lc [Lc Qc]] [_ Cc]]]].
  set (w2 := with_log (log w1 ++ [mkLog WARNING
                                    "No posts collected, exiting pipeline" []])
                      w1).
  assert (Rb : run_body env config wb = (Ok tt, w2)).
  { unfold run_body. unfold bind at 1. rewrite C. reflexivity. }
  destruct (finalized_effect w2)
    as [Tf [Sf [_ [_ [Sc [Sp [lf [Lf Qf]]]]]]]].
  assert (R : run env config w0 = (Ok tt, finalized env w2)).
  { rewrite run_eq, B. simpl snd. unfold try_except. rewrite Rb. reflexivity. }
  destruct (main_exit_code _ _ _ _ _ _ L I R) as [wm Hm].
  exists (finalized env w2), (get_summary (metrics (finalized env w2))), wm.
  split; [exact R|]. split; [exact Sf|]. split; [|split; [|split; [|split]]].
  - rewrite Sc. unfold w2. simpl metrics. rewrite Cc. reflexivity.
  - rewrite Sp. unfold w2. simpl metrics. rewrite Pc, Pb, Fr. reflexivity.
  - exists (lb ++ lc ++ [mkLog WARNING "No posts collected, exiting pipeline" []]
               ++ lf).
    split.
    + rewrite Lf. unfold w2. simpl log. rewrite Lc, Lb.
      rewrite <- !app_assoc. reflexivity.
    + assert (Qw : forallb (quiet [STAGE_2; STAGE_3; STAGE_4; STAGE_5])
                     [mkLog WARNING "No posts collected, exiting pipeline" []]
                   = true) by reflexivity.
      repeat split; repeat apply not_logged_app;
        eapply quiet_not_logged; eauto; simpl; auto.
  - rewrite Tf. unfold w2. simpl. rewrite Tc, Tb. reflexivity.
  - exact Hm.
Qed.

(** C6: whatever the [try] and [except] blocks of [run] do (a completed
    run, a no-op run, a fatal failure), the [finally] block runs after
    them: the run has the outcome they had, the end time is the reading of
    the clock taken on their exit, the summary of the final metrics is
    logged and written to the summary file. *)
Theorem C6_finalization_always_runs config w :
  exists r w1 wf l,
    try_except (run_body env config) (run_except env) (snd (run_begin env w))
    = (r, w1) /\
    run env config w = (r, wf) /\
    end_time (metrics wf) = Some (clock env (ticks (sys w1))) /\
    summary_file wf = Some (get_summary (metrics wf)) /\
    log wf = log w1 ++ l /\
    In (mkLog INFO SUMMARY_BANNER []) l.
Proof.
  destruct (try_except (run_body env config) (run_except env)
                       (snd (run_begin env w))) as [r w1] eqn:T.
  exists r, w1, (finalized env w1),
    (summary_lines (get_summary (metrics (finalized env w1)))).
  split; [reflexivity|]. rewrite run_eq, T. simpl fst. simpl snd.
  repeat split. apply summary_lines_banner.
Qed.

(** C9 (as the code has it): [end_stage] for a name that [start_stage]
    never recorded returns normally and changes nothing: no end, no
    duration, no reading of the clock, and no log record either. *)
Theorem C9_end_stage_never_started_is_silent name w :
  dict_get name (stage_durations (metrics w)) = None ->
  end_stage env name w = (Ok tt, w).
Proof.
  intros H. unfold end_stage, bind, get. rewrite H. reflexivity.
Qed.

End PipelineFacts.

(** * The theorems at concrete runs *)

(** C8: the [except] block of [record_metric] logs and does not re-raise,
    but the [conn.rollback()] it makes is not guarded.  When the connection
    is lost, the insert raises [OperationalError], the block logs it, the
    rollback raises [InterfaceError], and that exception leaves
    [record_metric]: the call does not return normally (no table changes
    and the connection is still given back).  [_record_metrics] has a
    [try]/[except] of its own: it logs the exception, gives up the metrics
    that remained, and returns; the run ends normally with exit code 0. *)
Theorem C8_record_metric_raises_when_rollback_fails :
  (exists s',
      record_metric env_connection_lost "posts_collected" 2 None sys0
      = (Raise (mkExn "InterfaceError" "connection already closed"), s') /\
      tables s' = tables sys0 /\
      pool_used s' = pool_used sys0 /\
      db_log s' = [mkLog ERROR "Error recording metric: {}"
                         [VStr "server closed the connection unexpectedly"]]) /\
  (exists w',
      _record_metrics env_connection_lost world0 = (Ok tt, w') /\
      pipeline_metrics (tables (sys w')) = [] /\
      In (mkLog ERROR "Failed to record metrics: {}"
                [VStr "connection already closed"]) (log w')) /\
  fst (main env_connection_lost world0) = Ok 0.
Proof.
  split; [|split].
  - eexists. split; [vm_compute; reflexivity|].
    split; [reflexivity|]. split; reflexivity.
  - eexists. split; [vm_compute; reflexivity|].
    split; [reflexivity|]. simpl. auto.
  - vm_compute. reflexivity.
Qed.

(** A run whose storage stage fails on a foreign-key violation. *)
Lemma C1_witness :
  exists e code wm,
    fst (run env_storage_fails config0 (constructed env_storage_fails))
    = Raise e /\
    exn_type e = "ForeignKeyViolation" /\
    main env_storage_fails world0 = (Ok code, wm) /\
    code <> 0.
Proof.
  destruct (C1_storage_failure_is_fatal env_storage_fails world0 config0
              (loaded env_storage_fails) (constructed env_storage_fails)
              (fst (run env_storage_fails config0
                      (constructed env_storage_fails)))
              (snd (run env_storage_fails config0
                      (constructed env_storage_fails))))
    as [A [code [wm [Hm Hc]]]];
    [vm_compute; reflexivity | vm_compute; reflexivity
    | apply surjective_pairing |].
  destruct (A [post_a; post_b] (collected env_storage_fails)
              [processed "missing" true]
              (processed_in env_storage_fails [post_a; post_b])
              (mkExn "ForeignKeyViolation"
                 "insert on table processed_posts violates foreign key constraint")
              (stored env_storage_fails [post_a; post_b]
                 [processed "missing" true]))
    as [Hr _];
    [vm_compute; reflexivity | discriminate | vm_compute; reflexivity
    | discriminate | vm_compute; reflexivity |].
  eexists. exists code, wm. split; [exact Hr|]. split; [reflexivity|].
  split; [exact Hm|].
  intros E. apply Hc in E. rewrite Hr in E. discriminate.
Defined.

(** A run whose alert manager raises: the run completes, the error is in
    the summary, five metric rows are recorded and the exit code is 0. *)
Lemma C2_witness :
  exists wf sm wm,
    run env_alerts_fail config0 (constructed env_alerts_fail) = (Ok tt, wf) /\
    summary_file wf = Some sm /\
    In (mkError "alerts" "connection refused" 1008) (sum_errors sm) /\
    List.length (pipeline_metrics (tables (sys wf))) = 5%nat /\
    main env_alerts_fail world0 = (Ok 0, wm).
Proof.
  destruct (C2_alert_failure_is_not_fatal env_alerts_fail world0 config0
              (loaded env_alerts_fail) (constructed env_alerts_fail)
              [post_a; post_b] (collected env_alerts_fail)
              [processed "a" true; processed "b" false]
              (processed_in env_alerts_fail [post_a; post_b])
              (stored env_alerts_fail [post_a; post_b]
                 [processed "a" true; processed "b" false])
              (mkExn "SMTPException" "connection refused")
              (snd (_generate_alerts_try env_alerts_fail config0
                      [processed "a" true; processed "b" false]
                      (snd (_generate_alerts_begin env_alerts_fail
                              (stored env_alerts_fail [post_a; post_b]
                                 [processed "a" true; processed "b" false]))))))
    as [w5 [t [wf [sm [wm [G [Eg [R [_ [Sf [Se Hm]]]]]]]]]]];
    [vm_compute; reflexivity | vm_compute; reflexivity
    | vm_compute; reflexivity | discriminate | vm_compute; reflexivity
    | discriminate | vm_compute; reflexivity | vm_compute; reflexivity |].
  exists wf, sm, wm. split; [exact R|]. split; [exact Sf|].
  assert (W : wf = snd (run env_alerts_fail config0 (constructed env_alerts_fail)))
    by (rewrite R; reflexivity).
  assert (T : t = 1008).
  { assert (Q : errors (metrics w5)
                = errors (metrics (snd (_generate_alerts env_alerts_fail config0
                                          [processed "a" true; processed "b" false]
                                          (stored env_alerts_fail [post_a; post_b]
                                             [processed "a" true;
                                              processed "b" false])))))
      by (rewrite G; reflexivity).
    rewrite Eg in Q. vm_compute in Q. inversion Q. reflexivity. }
  subst t. split; [exact Se|]. split; [|exact Hm].
  rewrite W. vm_compute. reflexivity.
Defined.

(** A run in which the collector finds nothing. *)
Lemma C5_witness :
  exists wf sm wm,
    run env_no_posts config0 (constructed env_no_posts) = (Ok tt, wf) /\
    summary_file wf = Some sm /\
    sum_posts_collected sm = 0 /\
    sum_posts_processed sm = 0 /\
    tables (sys wf) = tables0 /\
    main env_no_posts world0 = (Ok 0, wm).
Proof.
  destruct (C5_zero_posts_is_a_successful_noop env_no_posts world0 config0
              (loaded env_no_posts) (constructed env_no_posts)
              (collected env_no_posts))
    as [wf [sm [wm [R [Sf [Sc [Sp [_ [T Hm]]]]]]]]];
    [vm_compute; reflexivity | vm_compute; reflexivity
    | vm_compute; reflexivity |].
  exists wf, sm, wm. repeat split; auto.
Defined.

(** [end_stage] for a stage that was never started, in a fresh pipeline. *)
Lemma C9_witness :
  end_stage env_ok "storage" world0 = (Ok tt, world0).
Proof.
  apply (C9_end_stage_never_started_is_silent env_ok "storage" world0).
  reflexivity.
Defined.

(** The stage ["storage"] was never started in [world0], and [end_stage]
    surfaces no warning for it. *)
Lemma C9_counterexample :
  dict_get "storage" (stage_durations (metrics world0)) = None /\
  ~ end_stage_flags env_ok "storage" world0.
Proof.
  split; [reflexivity|].
  intros [x [Hx _]]. vm_compute in Hx. exact Hx.
Qed.

(** A run whose collector raises: two errors for the one failure. *)
Lemma C10_witness :
  exists wf sm,
    run env_collector_fails config0 (constructed env_collector_fails)
    = (Raise (mkExn "RequestException" "rate limited"), wf) /\
    summary_file wf = Some sm /\
    map err_stage (sum_errors sm) = ["collection"; "pipeline"] /\
    sum_error_count sm = 2.
Proof.
  destruct (C10_fatal_failure_is_recorded_twice env_collector_fails config0
              (constructed env_collector_fails) "collection"
              (mkExn "RequestException" "rate limited")
              (collected env_collector_fails))
    as [wf [sm [t1 [t2 [R [Sf [Se Sc]]]]]]].
  - vm_compute. reflexivity.
  - apply collection_raises. vm_compute. reflexivity.
  - exists wf, sm. rewrite Se. repeat split; auto.
Defined.

(** * Further properties of the database handler *)

Ltac db_prims :=
  unfold bind, sys_op, db_logger, modify, rollback_if_conn, raise, ret,
    commit, return_if_conn, return_connection, time_time.

Section DatabaseMore.
Variable env : Env.

Lemma execute_batch_processed mv posts : forall cur s c cur' f',
  execute_batch env cur (map (fun p => InsertProcessed p mv) posts) (s, Some c)
  = (Ok cur', f') ->
  exists c',
    f' = (s, Some c') /\
    raw_posts (pending c') = raw_posts (pending c) /\
    processed_posts (pending c')
    = processed_posts (pending c) ++ map (fun p => mkProcessedRow p mv) posts /\
    alerts (pending c') = alerts (pending c) /\
    pipeline_metrics (pending c') = pipeline_metrics (pending c) /\
    Forall (references_stored (pending c)) posts.
Proof.
  induction posts as [|p posts IH]; intros cur s c cur' f' H; simpl in H.
  - inversion H; subst. exists c. rewrite app_nil_r. repeat split; auto.
  - unfold bind in H.
    destruct (execute env cur (InsertProcessed p mv) (s, Some c))
      as [[cur1|e] f1] eqn:E; [|discriminate].
    unfold execute in E. simpl in E.
    destruct (p_post_id p) as [id|] eqn:Ep; [|discriminate].
    destruct (has_post_id (pending c) id) eqn:Hh; [|discriminate].
    destruct (exec_fault env (pending c) (InsertProcessed p mv)); [discriminate|].
    inversion E; subst; clear E.
    destruct (IH _ _ _ _ _ H) as [c' [F [R [P [A [Mx Fa]]]]]].
    exists c'. simpl in *. split; [exact F|]. split; [exact R|].
    split; [rewrite P, <- app_assoc; reflexivity|].
    split; [exact A|]. split; [exact Mx|].
    constructor.
    + exists id. auto.
    + eapply Forall_impl; [|exact Fa].
      intros q [i [Q1 Q2]]. exists i. split; [exact Q1|].
      unfold has_post_id in *. simpl in Q2. exact Q2.
Qed.

Lemma insert_processed_posts_cases posts mv s r s' :
  insert_processed_posts env posts mv s = (r, s') ->
  match r with
  | Raise _ => tables s' = tables s
  | Ok n =>
      exists c s1 cur s2 c2,
        get_connection env s = (Ok c, s1) /\
        pending c = tables s /\
        execute_batch env cursor
          (map (fun p => InsertProcessed p mv) posts) (s1, Some c)
        = (Ok cur, (s2, Some c2)) /\
        n = rowcount cur /\
        tables s' = pending c2
  end.
Proof.
  unfold insert_processed_posts, method, try_finally, try_except.
  unfold bind at 1. unfold acquire at 1. simpl fst.
  destruct (get_connection_cases env s) as [[e0 G]|[idle G]]; rewrite G.
  - db_prims. simpl. intros H; inversion H; subst. reflexivity.
  - unfold bind at 1.
    destruct (execute_batch env cursor _ _) as [[cur|e1] [s2 c2]] eqn:B.
    + pose proof (keeps_tables_execute_batch env _ _ _ _ _ B) as T.
      destruct (keeps_frame_execute_batch env _ _ _ _ _ B) as [_ N].
      simpl in T, N. destruct c2 as [c2|];
        [|destruct N as [N _]; specialize (N eq_refl); discriminate].
      db_prims. simpl.
      destruct (commit_fault env (pending c2)); simpl;
        [destruct (rollback_fault env (pending c2)); simpl|];
        intros H; inversion H; subst; clear H; simpl.
      * exact T.
      * exact T.
      * do 5 eexists. split; [reflexivity|]. split; [reflexivity|].
        split; [exact B|]. split; reflexivity.
    + pose proof (keeps_tables_execute_batch env _ _ _ _ _ B) as T.
      simpl in T. db_prims. simpl.
      destruct c2 as [c2|]; simpl;
        [destruct (rollback_fault env (pending c2)); simpl|];
        intros H; inversion H; subst; simpl; exact T.
Qed.

Lemma insert_processed_posts_ok posts mv s n s' :
  insert_processed_posts env posts mv s = (Ok n, s') ->
  processed_posts (tables s')
  = processed_posts (tables s) ++ map (fun p => mkProcessedRow p mv) posts /\
  raw_posts (tables s') = raw_posts (tables s) /\
  alerts (tables s') = alerts (tables s) /\
  pipeline_metrics (tables s') = pipeline_metrics (tables s) /\
  Forall (references_stored (tables s)) posts.
Proof.
  intros H. apply insert_processed_posts_cases in H.
  destruct H as [c [s1 [cur [s2 [c2 [_ [P [B [_ T]]]]]]]]].
  apply execute_batch_processed in B.
  destruct B as [c' [F [R [Pp [A [Mx Fa]]]]]].
  inversion F; subst c'. rewrite T. rewrite <- P. auto.
Qed.

(** X1: a call of [insert_processed_posts] that returns has appended one
    row per post of the batch, in the order of the batch and without
    removing duplicates, each stamped with the model version given; the
    other tables are as before, and every post of the batch refers to a
    raw post that was stored before the call. *)
Theorem X1_insert_processed_posts_appends_the_batch posts mv s n s' :
  insert_processed_posts env posts mv s = (Ok n, s') ->
  processed_posts (tables s')
  = processed_posts (tables s) ++ map (fun p => mkProcessedRow p mv) posts /\
  raw_posts (tables s') = raw_posts (tables s) /\
  alerts (tables s') = alerts (tables s) /\
  pipeline_metrics (tables s') = pipeline_metrics (tables s) /\
  Forall (references_stored (tables s)) posts.
Proof. exact (insert_processed_posts_ok posts mv s n s'). Qed.

(** X2: a batch of processed posts in which one post has no identifier or
    refers to a raw post that is not stored is rejected as a whole:
    whatever the environment does, [insert_processed_posts] raises and
    leaves every table as it was. *)
Theorem X2_orphan_processed_post_rejects_the_batch posts mv s p :
  In p posts ->
  ~ references_stored (tables s) p ->
  exists e s',
    insert_processed_posts env posts mv s = (Raise e, s') /\
    tables s' = tables s.
Proof.
  intros I O.
  destruct (insert_processed_posts env posts mv s) as [[n|e] s'] eqn:H.
  - exfalso. apply insert_processed_posts_ok in H.
    destruct H as [_ [_ [_ [_ Fa]]]].
    rewrite Forall_forall in Fa. exact (O (Fa p I)).
  - exists e, s'. split; [reflexivity|].
    exact (insert_processed_posts_cases _ _ _ _ _ H).
Qed.

(** *** Raw posts *)

Lemma execute_batch_raw_rows posts : forall cur s c cur' f',
  execute_batch env cur (map InsertRaw posts) (s, Some c) = (Ok cur', f') ->
  exists c' l,
    f' = (s, Some c') /\
    raw_posts (pending c') = raw_posts (pending c) ++ l /\
    processed_posts (pending c') = processed_posts (pending c) /\
    alerts (pending c') = alerts (pending c) /\
    pipeline_metrics (pending c') = pipeline_metrics (pending c) /\
    (forall p, In p l ->
               In p posts /\ platform p <> None /\
               exists id, post_id p = Some id /\
                          has_post_id (pending c) id = false) /\
    (posts <> [] -> rowcount cur' = 0 \/ rowcount cur' = 1) /\
    (posts = [] -> cur' = cur).
Proof.
  induction posts as [|p posts IH]; intros cur s c cur' f' H; simpl in H.
  - inversion H; subst. exists c, []. rewrite app_nil_r.
    split; [reflexivity|]. do 4 (split; [reflexivity|]).
    split; [intros ? []|]. split; [congruence|reflexivity].
  - unfold bind in H.
    destruct (execute env cur (InsertRaw p) (s, Some c))
      as [[cur1|e] f1] eqn:E; [|discriminate].
    unfold execute in E. simpl in E.
    destruct (post_id p) as [id|] eqn:Ep; [|discriminate].
    destruct (platform p) as [pf|] eqn:Epf; [|discriminate].
    destruct (exec_fault env (pending c) (InsertRaw p)); [discriminate|].
    simpl in E. destruct (has_post_id (pending c) id) eqn:Hh;
      inversion E; subst; clear E;
      destruct (IH _ _ _ _ _ H) as [c' [l [F [R [P [A [Mx [Il [Rc Rn]]]]]]]]].
    + exists c', l. split; [exact F|]. split; [exact R|].
      split; [exact P|]. split; [exact A|]. split; [exact Mx|].
      split; [|split; [|discriminate]].
      * intros q Hq. destruct (Il q Hq) as [I1 I2]. split; [right; exact I1|exact I2].
      * intros _. destruct posts; [rewrite (Rn eq_refl); simpl; auto|].
        apply Rc. discriminate.
    + exists c', (p :: l). simpl in *. split; [exact F|].
      split; [rewrite R, <- app_assoc; reflexivity|].
      split; [exact P|]. split; [exact A|]. split; [exact Mx|].
      split; [|split; [|discriminate]].
      * intros q [Hq|Hq].
        -- subst q. split; [left; reflexivity|]. split; [congruence|].
           exists id. auto.
        -- destruct (Il q Hq) as [I1 [I2 [i [I3 I4]]]].
           split; [right; exact I1|]. split; [exact I2|]. exists i.
           split; [exact I3|].
           unfold has_post_id in *. simpl in I4.
           rewrite existsb_app in I4. apply orb_false_iff in I4. tauto.
      * intros _. destruct posts; [rewrite (Rn eq_refl); simpl; auto|].
        apply Rc. discriminate.
Qed.

(** X3: whatever its outcome, [insert_raw_posts] only appends to
    [raw_posts]: the rows stored before the call stay in place, every new
    row is a post of the batch with an identifier and a platform, and no
    post whose identifier was already stored is inserted; the other
    tables are not touched. *)
Theorem X3_insert_raw_posts_only_appends_new_posts posts s :
  exists l,
    raw_posts (tables (snd (insert_raw_posts env posts s)))
    = raw_posts (tables s) ++ l /\
    (forall p, In p l ->
               In p posts /\ platform p <> None /\
               exists id, post_id p = Some id /\
                          has_post_id (tables s) id = false) /\
    processed_posts (tables (snd (insert_raw_posts env posts s)))
    = processed_posts (tables s) /\
    alerts (tables (snd (insert_raw_posts env posts s))) = alerts (tables s) /\
    pipeline_metrics (tables (snd (insert_raw_posts env posts s)))
    = pipeline_metrics (tables s).
Proof.
  destruct (insert_raw_posts env posts s) as [[n|e] s'] eqn:H;
    apply insert_raw_posts_cases in H; simpl.
  - destruct H as [c [s1 [cur [s2 [c2 [_ [P [B [_ T]]]]]]]]].
    apply execute_batch_raw_rows in B.
    destruct B as [c' [l [F [R [Pp [A [Mx [Il _]]]]]]]].
    inversion F; subst c'. exists l. rewrite T. rewrite <- P. auto.
  - exists []. rewrite H, app_nil_r.
    split; [reflexivity|]. split; [intros ? []|]. auto.
Qed.

(** X4: identifiers that are unique in [raw_posts] before a call of
    [insert_raw_posts] are unique after it, whatever the batch holds
    (posts already stored, the same post twice) and whatever the outcome
    of the call. *)
Theorem X4_insert_raw_posts_keeps_identifiers_unique posts s :
  NoDup (stored_ids (tables s)) ->
  NoDup (stored_ids (tables (snd (insert_raw_posts env posts s)))).
Proof. apply insert_raw_posts_keeps_ids_unique. Qed.


(** *** Alerts *)

Lemma insert_alert_cases pid ty sev m rs s r s' :
  insert_alert env pid ty sev m rs s = (r, s') ->
  alerts_seq s <= alerts_seq s' /\
  match r with
  | Raise _ => tables s' = tables s
  | Ok id =>
      id = alerts_seq s + 1 /\ alerts_seq s' = id /\
      tables s'
      = add_alert (mkAlertRow id pid ty sev m rs (clock env (ticks s)) false)
                  (tables s)
  end.
Proof.
  unfold insert_alert, method, try_finally, try_except.
  unfold bind at 1. unfold acquire at 1. simpl fst.
  destruct (get_connection_cases env s) as [[e0 G]|[idle G]]; rewrite G.
  - db_prims. simpl. intros H; inversion H; subst. simpl. split; [lia|reflexivity].
  - db_prims. unfold execute. simpl.
    destruct (exec_fault env (tables s) _); simpl.
    + destruct (rollback_fault env _); simpl;
        intros H; inversion H; subst; simpl; split; [lia|reflexivity|lia|reflexivity].
    + destruct (commit_fault env _); simpl;
        [destruct (rollback_fault env _); simpl|];
        intros H; inversion H; subst; simpl; split; try lia; auto.
Qed.

(** X6: a call of [insert_alert] that returns has stored exactly one new
    alert, unacknowledged, stamped with the clock reading taken by the
    call, under the identifier it returns, which is the next value of the
    sequence.  A call that raises stores nothing.  In both cases the
    sequence never goes back, so an identifier is never given twice. *)
Theorem X6_insert_alert_stores_one_fresh_alert pid ty sev m rs s :
  let out := insert_alert env pid ty sev m rs s in
  alerts_seq s <= alerts_seq (snd out) /\
  match fst out with
  | Raise _ => tables (snd out) = tables s
  | Ok id =>
      alerts_seq s < id /\ alerts_seq (snd out) = id /\
      alerts (tables (snd out))
      = alerts (tables s)
          ++ [mkAlertRow id pid ty sev m rs (clock env (ticks s)) false] /\
      raw_posts (tables (snd out)) = raw_posts (tables s) /\
      processed_posts (tables (snd out)) = processed_posts (tables s) /\
      pipeline_metrics (tables (snd out)) = pipeline_metrics (tables s)
  end.
Proof.
  destruct (insert_alert env pid ty sev m rs s) as [r s'] eqn:H. simpl.
  apply insert_alert_cases in H. destruct H as [L H].
  split; [exact L|]. destruct r as [id|e]; [|exact H].
  destruct H as [I [Sq T]]. rewrite T. simpl. repeat split; auto. lia.
Qed.

(** *** Reading the unacknowledged alerts *)

Lemma insert_desc_in j x l : In x (insert_desc j l) <-> x = j \/ In x l.
Proof.
  induction l as [|y l IH]; simpl.
  - intuition congruence.
  - destruct (a_triggered_at (j_alert y) <? a_triggered_at (j_alert j)); simpl.
    + intuition congruence.
    + rewrite IH. intuition congruence.
Qed.

Lemma insert_desc_sorted j l : sorted_desc l -> sorted_desc (insert_desc j l).
Proof.
  induction l as [|y l IH]; simpl; intros S.
  - split; [intros ? []|exact I].
  - destruct S as [Sy Sl].
    destruct (a_triggered_at (j_alert y) <? a_triggered_at (j_alert j)) eqn:E.
    + apply Z.ltb_lt in E. simpl. split; [|split; assumption].
      intros z [Hz|Hz]; [subst; lia|]. specialize (Sy z Hz). lia.
    + apply Z.ltb_ge in E. simpl. split; [|exact (IH Sl)].
      intros z Hz. apply insert_desc_in in Hz. destruct Hz as [Hz|Hz];
        [subst; exact E | exact (Sy z Hz)].
Qed.

Lemma order_by_triggered_desc_in x l :
  In x (order_by_triggered_desc l) <-> In x l.
Proof.
  unfold order_by_triggered_desc. induction l as [|y l IH]; simpl; [tauto|].
  rewrite insert_desc_in, IH. intuition congruence.
Qed.

Lemma order_by_triggered_desc_sorted l : sorted_desc (order_by_triggered_desc l).
Proof.
  unfold order_by_triggered_desc. induction l as [|y l IH]; simpl; [exact I|].
  apply insert_desc_sorted. exact IH.
Qed.

Lemma select_unacknowledged_in t j :
  In j (select_unacknowledged t) ->
  a_acknowledged (j_alert j) = false /\ joins t j.
Proof.
  unfold select_unacknowledged. rewrite order_by_triggered_desc_in.
  rewrite in_flat_map. intros [a [Ia Ij]].
  destruct (a_acknowledged a) eqn:Ak; [contradiction|].
  apply in_map_iff in Ij. destruct Ij as [r [Ej Ir]].
  apply filter_In in Ir. destruct Ir as [Ir Q]. subst j. simpl.
  split; [exact Ak|]. split; [exact Ia|].
  exists r. simpl. repeat split; auto.
  unfold opt_string_eqb in Q. destruct (post_id r) as [i|]; [|discriminate].
  apply String.eqb_eq in Q. subst. reflexivity.
Qed.

Lemma get_unacknowledged_alerts_cases s :
  exists rows s',
    get_unacknowledged_alerts env s = (Ok rows, s') /\
    tables s' = tables s /\
    (rows = [] \/ rows = select_unacknowledged (tables s)).
Proof.
  unfold get_unacknowledged_alerts, method, try_finally, try_except.
  unfold bind at 1. unfold acquire at 1. simpl fst.
  destruct (get_connection_cases env s) as [[e0 G]|[idle G]]; rewrite G.
  - db_prims. simpl. do 2 eexists. split; [reflexivity|]. simpl. auto.
  - db_prims. unfold execute. simpl.
    destruct (exec_fault env (tables s) _); simpl;
      do 2 eexists; (split; [reflexivity|]); simpl; auto.
Qed.

(** X7: [get_unacknowledged_alerts] never raises and changes no table.
    The rows it returns are ordered by trigger time, most recent first;
    each is an alert of the [alerts] table that is not acknowledged,
    joined with the title, url, score and comment count of the raw post
    it refers to (an alert whose post is not stored is not returned). *)
Theorem X7_get_unacknowledged_alerts_reads_safely s :
  exists rows s',
    get_unacknowledged_alerts env s = (Ok rows, s') /\
    tables s' = tables s /\
    sorted_desc rows /\
    forall j, In j rows -> a_acknowledged (j_alert j) = false /\ joins (tables s) j.
Proof.
  destruct (get_unacknowledged_alerts_cases s) as [rows [s' [H [T [E|E]]]]];
    exists rows, s'; (split; [exact H|]); (split; [exact T|]); subst rows.
  - split; [exact I|]. intros j [].
  - split; [apply order_by_triggered_desc_sorted|].
    intros j. apply select_unacknowledged_in.
Qed.

(** *** The pool at its bound *)

Lemma get_connection_exhausted s :
  pool_idle s = 0%nat -> pool_used s = maxconn ->
  get_connection env s
  = (Raise (mkExn "PoolError" "connection pool exhausted"), s).
Proof.
  intros I U. unfold get_connection. rewrite I, U. reflexivity.
Qed.

(** X8: when no connection is idle and [maxconn] = 20 connections are in
    use, the three insert methods raise [PoolError] and store nothing,
    [record_metric] returns normally without recording, and
    [get_unacknowledged_alerts] returns the empty list. *)
Theorem X8_exhausted_pool s :
  pool_idle s = 0%nat -> pool_used s = maxconn ->
  let PoolError := mkExn "PoolError" "connection pool exhausted" in
  (forall posts, exists s',
      insert_raw_posts env posts s = (Raise PoolError, s') /\
      tables s' = tables s) /\
  (forall posts mv, exists s',
      insert_processed_posts env posts mv s = (Raise PoolError, s') /\
      tables s' = tables s) /\
  (forall pid ty sev m rs, exists s',
      insert_alert env pid ty sev m rs s = (Raise PoolError, s') /\
      tables s' = tables s) /\
  (forall n v md, exists s',
      record_metric env n v md s = (Ok tt, s') /\ tables s' = tables s) /\
  (exists s',
      get_unacknowledged_alerts env s = (Ok [], s') /\ tables s' = tables s).
Proof.
  intros I U. pose proof (get_connection_exhausted s I U) as G. simpl.
  repeat split; intros;
    unfold insert_raw_posts, insert_raw_posts_frame, insert_processed_posts,
      insert_alert, record_metric, get_unacknowledged_alerts, method,
      try_finally, try_except;
    unfold bind at 1; unfold acquire at 1; simpl fst; rewrite G;
    db_prims; simpl; eexists; split; reflexivity.
Qed.

(** X9: a [DatabaseHandler] whose constructor returns holds a pool with
    one idle connection and none in use (the connection taken by
    [init_schema] has been given back), and the constructor has changed
    no table. *)
Theorem X9_DatabaseHandler_init_leaves_one_idle_connection s s' :
  DatabaseHandler_init env s = (Ok tt, s') ->
  pool_idle s' = 1%nat /\ pool_used s' = 0%nat /\ tables s' = tables s.
Proof.
  unfold DatabaseHandler_init, try_except. unfold bind at 1.
  destruct (connect_fault env s); [db_prims; simpl; discriminate|].
  unfold bind at 1. unfold db_logger at 1, modify at 1.
  unfold init_schema, method, try_finally, try_except.
  unfold bind at 1. unfold acquire at 1. unfold get_connection. simpl.
  db_prims. unfold execute. simpl.
  destruct (exec_fault env _ _); simpl;
    [destruct (rollback_fault env _); simpl; discriminate|].
  destruct (commit_fault env _); simpl;
    [destruct (rollback_fault env _); simpl; discriminate|].
  intros H; inversion H; subst. simpl. auto.
Qed.

(** X23: as long as [conn.rollback()] does not fail, [record_metric]
    swallows every failure of its [try] block (no connection, the insert,
    the commit): it returns normally, and then either the metric row was
    committed or no table changed. *)
Theorem X23_record_metric_swallows_when_rollback_succeeds name value md s :
  (forall t, rollback_fault env t = None) ->
  exists s',
    record_metric env name value md s = (Ok tt, s') /\
    (tables s' = tables s \/
     tables s' = add_metric (mkMetricRow name value (metadata_or_empty md))
                            (tables s)).
Proof.
  intros Hr.
  destruct (record_metric_returns env name value md s Hr) as [s' E].
  exists s'. split; [exact E|].
  pose proof (record_metric_tables env name value md s) as T.
  rewrite E in T. exact T.
Qed.
End DatabaseMore.

(** * Further properties of the metrics and of the orchestrator *)

Lemma dict_set_set V (k : string) (v v' : V) (d : list (string * V)) :
  dict_set k v (dict_set k v' d) = dict_set k v d.
Proof.
  unfold dict_set.
  induction d as [|[k' x] d IH]; simpl.
  - rewrite String.eqb_refl. reflexivity.
  - destruct (String.eqb k' k) eqn:E; simpl.
    + rewrite String.eqb_refl. reflexivity.
    + rewrite E. f_equal. exact IH.
Qed.

Lemma dict_get_set_other V (k k' : string) (v : V) (d : list (string * V)) :
  k <> k' -> dict_get k (dict_set k' v d) = dict_get k d.
Proof.
  intros N. unfold dict_get, dict_set.
  induction d as [|[k0 x] d IH]; simpl.
  - destruct (String.eqb k' k) eqn:E; [|reflexivity].
    apply String.eqb_eq in E. congruence.
  - destruct (String.eqb k0 k') eqn:E; simpl.
    + apply String.eqb_eq in E. subst k0.
      destruct (String.eqb k' k) eqn:E'; [|reflexivity].
      apply String.eqb_eq in E'. congruence.
    + destruct (String.eqb k0 k); [reflexivity|exact IH].
Qed.

Lemma dict_get_map V W (f : V -> W) (k : string) (d : list (string * V)) :
  dict_get k (map (fun kv => (fst kv, f (snd kv))) d)
  = option_map f (dict_get k d).
Proof.
  unfold dict_get.
  induction d as [|[k' x] d IH]; simpl; [reflexivity|].
  destruct (String.eqb k' k); [reflexivity|exact IH].
Qed.

Ltac world_prims :=
  unfold logger, start_stage, end_stage, add_error, item, outcome, fault in *;
  unfold update_metrics, now in *;
  unfold lift_sys, time_time in *;
  unfold bind, try_finally, try_except, modify, get, ret, raise in *.

Section MetricsMore.
Variable env : Env.

(** X10: a stage that is started and then ended has, under its name, the
    two readings of the clock and their difference as duration, whatever
    was recorded under that name before; the summary reports that
    difference for it. *)
Theorem X10_stage_duration_is_end_minus_start name w :
  exists w',
    (start_stage env name ;; end_stage env name) w = (Ok tt, w') /\
    dict_get name (stage_durations (metrics w'))
    = Some (closed_stage (clock env (ticks (sys w)))
                         (clock env (S (ticks (sys w))))) /\
    dict_get name (sum_stage_durations (get_summary (metrics w')))
    = Some (clock env (S (ticks (sys w))) - clock env (ticks (sys w))).
Proof.
  destruct w as [sy me lo sf]. world_prims. simpl.
  rewrite dict_get_set_same. simpl. eexists. split; [reflexivity|].
  simpl. rewrite dict_set_set.
  rewrite (dict_get_map _ _ (fun v => get_default_duration (st_duration v))).
  rewrite dict_get_set_same. split; reflexivity.
Qed.

(** X11: a stage that is started and not ended has no end and no duration
    (an earlier end and duration under the same name are discarded), and
    the summary reports it with the duration 0. *)
Theorem X11_open_stage_is_reported_with_zero name w :
  exists w',
    start_stage env name w = (Ok tt, w') /\
    dict_get name (stage_durations (metrics w'))
    = Some (mkStage (clock env (ticks (sys w))) None None) /\
    dict_get name (sum_stage_durations (get_summary (metrics w'))) = Some 0.
Proof.
  destruct w as [sy me lo sf]. world_prims. simpl.
  eexists. split; [reflexivity|]. simpl.
  rewrite (dict_get_map _ _ (fun v => get_default_duration (st_duration v))).
  rewrite dict_get_set_same. split; reflexivity.
Qed.

End MetricsMore.

Ltac stage_leaf :=
  rewrite ?dict_get_set_same;
  let H := fresh in
  intros H; inversion H; subst; clear H; simpl;
  rewrite ?dict_set_set.

Ltac stage_facts :=
  split; [eexists; reflexivity|]; do 5 (split; [reflexivity|]).

Section PipelineMore.
Variable env : Env.

Lemma _collect_data_more config w r w' :
  _collect_data env config w = (r, w') ->
  (exists t1, stage_durations (metrics w')
              = dict_set "collection"
                  (closed_stage (clock env (ticks (sys w))) t1)
                  (stage_durations (metrics w))) /\
  end_time (metrics w') = end_time (metrics w) /\
  start_time (metrics w') = start_time (metrics w) /\
  posts_stored (metrics w') = posts_stored (metrics w) /\
  alerts_generated (metrics w') = alerts_generated (metrics w) /\
  summary_file w' = summary_file w /\
  match r with
  | Ok posts =>
      exists m kw sr,
        monitoring config = Some m /\ keywords m = Some kw /\
        subreddits m = Some sr /\
        collect_posts env kw sr (get_default (posts_per_subreddit m) 50) "day"
        = Ok posts
  | Raise e =>
      posts_collected (metrics w') = posts_collected (metrics w) /\
      match monitoring config with
      | None => e = KeyError "monitoring"
      | Some m =>
          match keywords m, subreddits m with
          | None, _ => e = KeyError "keywords"
          | Some _, None => e = KeyError "subreddits"
          | Some kw, Some sr =>
              collect_posts env kw sr (get_default (posts_per_subreddit m) 50)
                            "day" = Raise e
          end
      end
  end.
Proof.
  destruct w as [sy me lo sf]. unfold _collect_data. world_prims. simpl.
  destruct (monitoring config) as [m|]; simpl; [|stage_leaf; stage_facts; auto].
  destruct (keywords m) as [kw|] eqn:K; simpl;
    [|stage_leaf; stage_facts; auto].
  destruct (subreddits m) as [sr|] eqn:R; simpl;
    [|stage_leaf; stage_facts; auto].
  destruct (collect_posts env _ _ _ _) as [posts|e] eqn:C; simpl; stage_leaf;
    stage_facts.
  - exists m, kw, sr. auto.
  - auto.
Qed.

Lemma _process_data_more raw w r w' :
  _process_data env raw w = (r, w') ->
  (exists t1, stage_durations (metrics w')
              = dict_set "processing"
                  (closed_stage (clock env (ticks (sys w))) t1)
                  (stage_durations (metrics w))) /\
  end_time (metrics w') = end_time (metrics w) /\
  start_time (metrics w') = start_time (metrics w) /\
  posts_stored (metrics w') = posts_stored (metrics w) /\
  alerts_generated (metrics w') = alerts_generated (metrics w) /\
  summary_file w' = summary_file w /\
  match r with
  | Ok posts =>
      process_posts env raw = Ok posts /\
      posts_processed (metrics w') = len posts
  | Raise e =>
      process_posts env raw = Raise e /\
      posts_processed (metrics w') = posts_processed (metrics w)
  end.
Proof.
  destruct w as [sy me lo sf]. unfold _process_data. world_prims. simpl.
  destruct (process_posts env raw) as [posts|e]; simpl; stage_leaf;
    stage_facts; auto.
Qed.

Lemma _store_data_more config raw proc w r w' :
  _store_data env config raw proc w = (r, w') ->
  (exists t1, stage_durations (metrics w')
              = dict_set "storage"
                  (closed_stage (clock env (ticks (sys w))) t1)
                  (stage_durations (metrics w))) /\
  end_time (metrics w') = end_time (metrics w) /\
  start_time (metrics w') = start_time (metrics w) /\
  posts_collected (metrics w') = posts_collected (metrics w) /\
  posts_processed (metrics w') = posts_processed (metrics w) /\
  alerts_generated (metrics w') = alerts_generated (metrics w) /\
  summary_file w' = summary_file w /\
  match insert_raw_posts env raw (sys (snd (start_stage env "storage" w))) with
  | (Raise e, s1) =>
      r = Raise e /\ tables (sys w') = tables s1 /\
      posts_stored (metrics w') = posts_stored (metrics w)
  | (Ok n, s1) =>
      match ml config with
      | None =>
          r = Raise (KeyError "ml") /\ tables (sys w') = tables s1 /\
          posts_stored (metrics w') = posts_stored (metrics w)
      | Some m =>
          match insert_processed_posts env proc
                  (get_default (model_version m) "v1.0") s1 with
          | (Raise e, s2) =>
              r = Raise e /\ tables (sys w') = tables s2 /\
              posts_stored (metrics w') = posts_stored (metrics w)
          | (Ok k, s2) =>
              r = Ok tt /\ tables (sys w') = tables s2 /\
              posts_stored (metrics w') = n
          end
      end
  end.
Proof.
  destruct w as [sy me lo sf]. unfold _store_data. world_prims. simpl.
  destruct (insert_raw_posts env raw _) as [[n|e] s1]; simpl;
    [|stage_leaf; stage_facts; auto].
  destruct (ml config) as [m|]; simpl; [|stage_leaf; stage_facts; auto].
  destruct (insert_processed_posts env proc _ _) as [[k|e] s2]; simpl;
    stage_leaf; stage_facts; auto.
Qed.

Lemma _generate_alerts_more config proc w :
  exists w5 t1,
    _generate_alerts env config proc w = (Ok tt, w5) /\
    stage_durations (metrics w5)
    = dict_set "alerts" (closed_stage (clock env (ticks (sys w))) t1)
               (stage_durations (metrics w)) /\
    end_time (metrics w5) = end_time (metrics w) /\
    start_time (metrics w5) = start_time (metrics w) /\
    posts_collected (metrics w5) = posts_collected (metrics w) /\
    posts_processed (metrics w5) = posts_processed (metrics w) /\
    posts_stored (metrics w5) = posts_stored (metrics w) /\
    summary_file w5 = summary_file w /\
    match fst (_generate_alerts_try env config proc
                 (snd (_generate_alerts_begin env w))) with
    | Ok _ =>
        alerts_generated (metrics w5) = len (filter alert_triggered proc) /\
        errors (metrics w5) = errors (metrics w)
    | Raise e =>
        alerts_generated (metrics w5) = alerts_generated (metrics w) /\
        exists t, errors (metrics w5)
                  = errors (metrics w) ++ [mkError "alerts" (exn_str e) t]
    end.
Proof.
  destruct w as [sy me lo sf].
  unfold _generate_alerts, _generate_alerts_begin, _generate_alerts_try.
  world_prims. simpl.
  destruct (alerts_cfg config) as [a|]; simpl.
  - destruct (process_alerts env proc _ _) as [[[]|e] s1]; simpl;
      rewrite ?dict_get_set_same; simpl; rewrite ?dict_set_set;
      do 2 eexists; (split; [reflexivity|]); simpl;
      repeat (split; [reflexivity|]); try (split; [reflexivity|]);
      try reflexivity; eexists; reflexivity.
  - rewrite ?dict_get_set_same; simpl; rewrite ?dict_set_set;
      do 2 eexists; (split; [reflexivity|]); simpl;
      repeat (split; [reflexivity|]); eexists; reflexivity.
Qed.

Lemma record_metric_row name value md s :
  exists r s' l,
    record_metric env name value md s = (r, s') /\
    raw_posts (tables s') = raw_posts (tables s) /\
    processed_posts (tables s') = processed_posts (tables s) /\
    alerts (tables s') = alerts (tables s) /\
    pipeline_metrics (tables s') = pipeline_metrics (tables s) ++ l /\
    forall row, In row l ->
                row = mkMetricRow name value (metadata_or_empty md).
Proof.
  destruct (record_metric_cases env name value md s) as [r [s' [E [T|T]]]].
  - exists r, s', []. rewrite T, app_nil_r. repeat split; auto. intros ? [].
  - exists r, s', [mkMetricRow name value (metadata_or_empty md)].
    rewrite T. simpl. repeat split; auto. intros ? [H|[]]. auto.
Qed.

Ltac rows_done :=
  simpl;
  split; [congruence|]; split; [congruence|]; split; [congruence|]; split;
  [ repeat match goal with
           | M : pipeline_metrics (tables _) = _ |- _ => rewrite M; clear M
           end;
    rewrite <- ?app_assoc; reflexivity
  | let row := fresh "row" in
    let H := fresh "H" in
    intros row H;
    repeat (apply in_app_or in H; destruct H as [H|H]);
    match goal with
    | I : forall r, In r ?l -> _, H0 : In _ ?l |- _ => apply I in H0
    end; subst row; simpl; auto 10 ].

(** The metric rows [_record_metrics] writes, at most one for each of the
    five figures of the summary taken on entry; a call of [record_metric]
    that raises ends the stage, which still returns. *)
Lemma _record_metrics_rows w :
  exists w' l,
    _record_metrics env w = (Ok tt, w') /\
    raw_posts (tables (sys w')) = raw_posts (tables (sys w)) /\
    processed_posts (tables (sys w')) = processed_posts (tables (sys w)) /\
    alerts (tables (sys w')) = alerts (tables (sys w)) /\
    pipeline_metrics (tables (sys w'))
    = pipeline_metrics (tables (sys w)) ++ l /\
    forall row, In row l ->
      metric_metadata row = [] /\
      In (metric_name row, metric_value row)
         [("posts_collected", posts_collected (metrics w));
          ("posts_processed", posts_processed (metrics w));
          ("alerts_generated", alerts_generated (metrics w));
          ("execution_time", sum_execution_time (get_summary (metrics w)));
          ("error_count", len (errors (metrics w)))].
Proof.
  destruct w as [sy me lo sf].
  unfold _record_metrics. world_prims. simpl.
  destruct (record_metric_row "posts_collected" (posts_collected me) None sy)
    as [r1 [s1 [l1 [E1 [R1 [P1 [A1 [M1 I1]]]]]]]]. rewrite E1. simpl.
  destruct r1 as [[]|e1]; simpl;
    [|eexists; exists l1; split; [reflexivity|]; rows_done].
  destruct (record_metric_row "posts_processed" (posts_processed me) None s1)
    as [r2 [s2 [l2 [E2 [R2 [P2 [A2 [M2 I2]]]]]]]]. rewrite E2. simpl.
  destruct r2 as [[]|e2]; simpl;
    [|eexists; exists (l1 ++ l2); split; [reflexivity|]; rows_done].
  destruct (record_metric_row "alerts_generated" (alerts_generated me) None s2)
    as [r3 [s3 [l3 [E3 [R3 [P3 [A3 [M3 I3]]]]]]]]. rewrite E3. simpl.
  destruct r3 as [[]|e3]; simpl;
    [|eexists; exists (l1 ++ l2 ++ l3); split; [reflexivity|]; rows_done].
  destruct (record_metric_row "execution_time"
              (sum_execution_time (get_summary me)) None s3)
    as [r4 [s4 [l4 [E4 [R4 [P4 [A4 [M4 I4]]]]]]]].
  change (if truthy (end_time me) && truthy (start_time me)
          then time_value (end_time me) - time_value (start_time me) else 0)
    with (sum_execution_time (get_summary me)).
  rewrite E4. simpl.
  destruct r4 as [[]|e4]; simpl;
    [|eexists; exists (l1 ++ l2 ++ l3 ++ l4); split; [reflexivity|];
      rows_done].
  destruct (record_metric_row "error_count" (len (errors me)) None s4)
    as [r5 [s5 [l5 [E5 [R5 [P5 [A5 [M5 I5]]]]]]]].
  change (Z.of_nat (List.length (errors me))) with (len (errors me)).
  rewrite E5. simpl.
  destruct r5 as [[]|e5]; simpl;
    eexists; exists (l1 ++ l2 ++ l3 ++ l4 ++ l5); (split; [reflexivity|]);
    rows_done.
Qed.

Lemma run_begin_more w :
  run_begin env w
  = (Ok tt,
     mkWorld (with_ticks (S (ticks (sys w))) (sys w))
             (set_start_time (Some (clock env (ticks (sys w)))) (metrics w))
             (log w ++ [mkLog INFO equals [];
                        mkLog INFO "STARTING SOCIAL MEDIA MONITORING PIPELINE" [];
                        mkLog INFO equals []])
             (summary_file w)).
Proof.
  destruct w as [sy me lo sf]. unfold run_begin. world_prims. simpl.
  rewrite <- !app_assoc. reflexivity.
Qed.

(** X12: each of the four timed stages closes the entry it opened, on
    every exit of its [try] block: whatever the stage returns or raises,
    [stage_durations] holds for it the start read on entry, an end, and
    the duration end - start. *)
Theorem X12_every_stage_closes_its_timing config raw proc w :
  (exists t1,
      dict_get "collection"
        (stage_durations (metrics (snd (_collect_data env config w))))
      = Some (closed_stage (clock env (ticks (sys w))) t1)) /\
  (exists t1,
      dict_get "processing"
        (stage_durations (metrics (snd (_process_data env raw w))))
      = Some (closed_stage (clock env (ticks (sys w))) t1)) /\
  (exists t1,
      dict_get "storage"
        (stage_durations (metrics (snd (_store_data env config raw proc w))))
      = Some (closed_stage (clock env (ticks (sys w))) t1)) /\
  (exists t1,
      dict_get "alerts"
        (stage_durations (metrics (snd (_generate_alerts env config proc w))))
      = Some (closed_stage (clock env (ticks (sys w))) t1)).
Proof.
  split; [|split; [|split]].
  - destruct (_collect_data env config w) as [r w'] eqn:E.
    destruct (_collect_data_more _ _ _ _ E) as [[t1 D] _].
    exists t1. simpl. rewrite D. apply dict_get_set_same.
  - destruct (_process_data env raw w) as [r w'] eqn:E.
    destruct (_process_data_more _ _ _ _ E) as [[t1 D] _].
    exists t1. simpl. rewrite D. apply dict_get_set_same.
  - destruct (_store_data env config raw proc w) as [r w'] eqn:E.
    destruct (_store_data_more _ _ _ _ _ _ E) as [[t1 D] _].
    exists t1. simpl. rewrite D. apply dict_get_set_same.
  - destruct (_generate_alerts_more config proc w) as [w5 [t1 [G [D _]]]].
    exists t1. rewrite G. simpl. rewrite D. apply dict_get_set_same.
Qed.

(** X13: in a run whose end time is not set on entry, as in a new
    pipeline, the metrics stage runs before the [finally] block stamps the
    end time: whatever the alerting stage did, every [execution_time] row
    it writes carries the value 0. *)
Theorem X13_execution_time_metric_is_zero config w0 raw w1 proc w2 w3 :
  end_time (metrics w0) = None ->
  _collect_data env config (snd (run_begin env w0)) = (Ok raw, w1) ->
  _process_data env raw w1 = (Ok proc, w2) ->
  _store_data env config raw proc w2 = (Ok tt, w3) ->
  exists w5 w6 l,
    _generate_alerts env config proc w3 = (Ok tt, w5) /\
    _record_metrics env w5 = (Ok tt, w6) /\
    pipeline_metrics (tables (sys w6))
    = pipeline_metrics (tables (sys w5)) ++ l /\
    forall row, In row l ->
                metric_name row = "execution_time" -> metric_value row = 0.
Proof.
  intros E0 C P S.
  rewrite run_begin_more in C. simpl in C.
  destruct (_collect_data_more _ _ _ _ C) as [_ [E1 _]].
  destruct (_process_data_more _ _ _ _ P) as [_ [E2 _]].
  destruct (_store_data_more _ _ _ _ _ _ S) as [_ [E3 _]].
  destruct (_generate_alerts_more config proc w3) as [w5 [t1 [G [_ [E5 _]]]]].
  destruct (_record_metrics_rows w5) as [w6 [l [R [_ [_ [_ [Pm Rows]]]]]]].
  exists w5, w6, l. split; [exact G|]. split; [exact R|]. split; [exact Pm|].
  intros row I N. destruct (Rows row I) as [_ Hin].
  assert (Z0 : sum_execution_time (get_summary (metrics w5)) = 0).
  { unfold get_summary. simpl. rewrite E5, E3, E2, E1. simpl in *.
    rewrite E0. reflexivity. }
  simpl in Hin.
  destruct Hin as [H|[H|[H|[H|[H|[]]]]]]; injection H as Hn Hv;
    try (rewrite <- Hn in N; discriminate).
  rewrite <- Hv. exact Z0.
Qed.

(** X14: when the configuration lacks the [monitoring] section or its
    [keywords] or [subreddits] key, the collection stage raises the
    [KeyError] of the first missing key, whatever the collector would
    answer; the error is recorded under ['collection'] with the quoted key
    as message and [posts_collected] keeps its value. *)
Theorem X14_missing_monitoring_key config w k :
  missing_key config = Some k ->
  exists w' t,
    _collect_data env config w = (Raise (KeyError k), w') /\
    errors (metrics w')
    = errors (metrics w) ++ [mkError "collection" ("'" ++ k ++ "'") t] /\
    posts_collected (metrics w') = posts_collected (metrics w).
Proof.
  intros K.
  destruct (_collect_data env config w) as [r w'] eqn:E.
  pose proof (_collect_data_more _ _ _ _ E) as M.
  destruct (_collect_data_effect env _ _ _ _ E) as [_ [_ [_ F]]].
  destruct M as [_ [_ [_ [_ [_ [_ M]]]]]].
  unfold missing_key in K.
  destruct r as [posts|e].
  - exfalso. destruct M as [m [kw [sr [M1 [M2 [M3 _]]]]]].
    rewrite M1, M2, M3 in K. discriminate.
  - destruct M as [Pc M]. destruct F as [t F].
    assert (X : e = KeyError k).
    { destruct (monitoring config) as [m|]; [|congruence].
      destruct (keywords m); [|congruence].
      destruct (subreddits m); [discriminate|congruence]. }
    subst e. exists w', t. auto.
Qed.

(** X15: when the collection stage returns, what it returns is the answer
    of the collector called with the configured keywords and subreddits,
    the configured [posts_per_subreddit] or 50 when it is absent, and the
    time filter ['day']; [posts_collected] is the length of that answer
    and no error is recorded. *)
Theorem X15_collection_returns_the_collector_answer config w posts w' :
  _collect_data env config w = (Ok posts, w') ->
  (exists m kw sr,
      monitoring config = Some m /\ keywords m = Some kw /\
      subreddits m = Some sr /\
      collect_posts env kw sr (get_default (posts_per_subreddit m) 50) "day"
      = Ok posts) /\
  posts_collected (metrics w') = len posts /\
  errors (metrics w') = errors (metrics w).
Proof.
  intros E.
  destruct (_collect_data_more _ _ _ _ E) as [_ [_ [_ [_ [_ [_ M]]]]]].
  destruct (_collect_data_effect env _ _ _ _ E) as [_ [_ [_ [F1 F2]]]].
  auto.
Qed.

(** *** The sentiment distribution *)

Lemma total_count_set k (d : list (string * Z)) :
  total_count (dict_set k (get_default (dict_get k d) 0 + 1) d)
  = total_count d + 1.
Proof.
  unfold total_count, dict_set, dict_get.
  induction d as [|[k' x] d IH]; simpl; [lia|].
  destruct (String.eqb k' k); simpl; [lia|]. rewrite IH. lia.
Qed.

Lemma tally_total posts : forall counts,
  total_count
    (fold_left
       (fun counts post =>
          let label := sentiment_label post in
          dict_set label (get_default (dict_get label counts) 0 + 1) counts)
       posts counts)
  = total_count counts + len posts.
Proof.
  induction posts as [|p posts IH]; intros counts; simpl.
  - unfold len. simpl. lia.
  - rewrite IH, total_count_set. unfold len. simpl List.length. lia.
Qed.

Lemma tally_label label posts : forall counts,
  get_default
    (dict_get label
       (fold_left
          (fun counts post =>
             let l := sentiment_label post in
             dict_set l (get_default (dict_get l counts) 0 + 1) counts)
          posts counts)) 0
  = get_default (dict_get label counts) 0 + labelled label posts.
Proof.
  induction posts as [|p posts IH]; intros counts; simpl.
  - unfold labelled, len. simpl. lia.
  - rewrite IH. unfold labelled, len. simpl filter.
    destruct (String.eqb (sentiment_label p) label) eqn:E.
    + apply String.eqb_eq in E. subst label.
      rewrite dict_get_set_same. simpl List.length. simpl get_default. lia.
    + rewrite dict_get_set_other.
      * lia.
      * intros N. subst label. rewrite String.eqb_refl in E. discriminate.
Qed.

(** X16: the sentiment distribution logged by the processing stage counts
    every post once: the counts add up to the number of processed posts,
    and the count of a label is the number of posts carrying it (0 for a
    label that is absent). *)
Theorem X16_sentiment_distribution_counts_every_post posts :
  total_count (sentiment_distribution posts) = len posts /\
  forall label,
    get_default (dict_get label (sentiment_distribution posts)) 0
    = labelled label posts.
Proof.
  unfold sentiment_distribution. split.
  - rewrite tally_total. reflexivity.
  - intros label. rewrite tally_label. reflexivity.
Qed.

(** X17: the alerting stage never raises.  When its [try] block succeeds,
    [alerts_generated] becomes the number of processed posts whose
    [alert_triggered] flag is set and no error is added; when the block
    raises, [alerts_generated] keeps its value, so a failed delivery
    leaves the alert count of the summary untouched, and one error is
    added under ['alerts']. *)
Theorem X17_alert_count_follows_the_try_block config proc w :
  exists w5,
    _generate_alerts env config proc w = (Ok tt, w5) /\
    match fst (_generate_alerts_try env config proc
                 (snd (_generate_alerts_begin env w))) with
    | Ok _ =>
        alerts_generated (metrics w5) = len (filter alert_triggered proc) /\
        errors (metrics w5) = errors (metrics w)
    | Raise e =>
        alerts_generated (metrics w5) = alerts_generated (metrics w) /\
        exists t, errors (metrics w5)
                  = errors (metrics w) ++ [mkError "alerts" (exn_str e) t]
    end.
Proof.
  destruct (_generate_alerts_more config proc w)
    as [w5 [t1 [G [_ [_ [_ [_ [_ [_ [_ M]]]]]]]]]].
  exists w5. auto.
Qed.

(** X18: the storage stage writes the two tables in two transactions, raw
    posts first.  When the raw insert raises, nothing is stored.  When it
    succeeds and the processed insert raises (or the [ml] section is
    missing), the stage raises but the raw posts stay committed while no
    processed row is; [posts_stored] is set only when both succeed, to
    the value the raw insert returned. *)
Theorem X18_storage_is_two_transactions config raw proc w :
  let out := _store_data env config raw proc w in
  match insert_raw_posts env raw (sys (snd (start_stage env "storage" w))) with
  | (Raise e, s1) =>
      fst out = Raise e /\ tables (sys (snd out)) = tables (sys w) /\
      posts_stored (metrics (snd out)) = posts_stored (metrics w)
  | (Ok n, s1) =>
      match ml config with
      | None =>
          fst out = Raise (KeyError "ml") /\
          tables (sys (snd out)) = tables s1 /\
          posts_stored (metrics (snd out)) = posts_stored (metrics w)
      | Some m =>
          match insert_processed_posts env proc
                  (get_default (model_version m) "v1.0") s1 with
          | (Raise e, s2) =>
              fst out = Raise e /\
              tables (sys (snd out)) = tables s1 /\
              posts_stored (metrics (snd out)) = posts_stored (metrics w)
          | (Ok k, s2) =>
              fst out = Ok tt /\
              raw_posts (tables (sys (snd out))) = raw_posts (tables s1) /\
              processed_posts (tables (sys (snd out)))
              = processed_posts (tables s1)
                  ++ map (fun p => mkProcessedRow p
                                     (get_default (model_version m) "v1.0"))
                         proc /\
              posts_stored (metrics (snd out)) = n
          end
      end
  end.
Proof.
  destruct (_store_data env config raw proc w) as [r w'] eqn:E. simpl.
  pose proof (_store_data_more _ _ _ _ _ _ E) as M.
  destruct M as [_ [_ [_ [_ [_ [_ [_ M]]]]]]].
  destruct (insert_raw_posts env raw _) as [[n|e] s1] eqn:R.
  - destruct (ml config) as [m|]; [|exact M].
    destruct (insert_processed_posts env proc _ s1) as [[k|e] s2] eqn:P.
    + destruct M as [M1 [M2 M3]].
      destruct (insert_processed_posts_ok env _ _ _ _ _ P) as [Pp [Rp _]].
      rewrite M2. auto.
    + destruct M as [M1 [M2 M3]].
      pose proof (insert_processed_posts_cases env _ _ _ _ _ P) as A.
      simpl in A. rewrite M2, A. auto.
  - destruct M as [M1 [M2 M3]].
    apply insert_raw_posts_atomic in R. rewrite M2, R.
    destruct w as [sy me lo sf]. simpl. auto.
Qed.

Lemma finalized_metrics w :
  metrics (finalized env w)
  = set_end_time (Some (clock env (ticks (sys w)))) (metrics w).
Proof. reflexivity. Qed.

(** X19: a run of a new pipeline in which every stage succeeds returns
    normally and its summary accounts for the run: the numbers of posts
    collected and processed are the lengths of what the collector and the
    processor returned, [alerts_generated] is the number of posts flagged,
    no error is listed, the four stages are timed in the order they ran
    and the start time is the first reading of the clock. *)
Theorem X19_completed_run_summary config w0 raw w1 proc w2 w3 w4 :
  metrics w0 = PipelineMetrics_init ->
  _collect_data env config (snd (run_begin env w0)) = (Ok raw, w1) ->
  raw <> [] ->
  _process_data env raw w1 = (Ok proc, w2) ->
  proc <> [] ->
  _store_data env config raw proc w2 = (Ok tt, w3) ->
  _generate_alerts_try env config proc (snd (_generate_alerts_begin env w3))
  = (Ok tt, w4) ->
  exists wf sm,
    run env config w0 = (Ok tt, wf) /\
    summary_file wf = Some sm /\
    sum_posts_collected sm = len raw /\
    sum_posts_processed sm = len proc /\
    sum_alerts_generated sm = len (filter alert_triggered proc) /\
    sum_errors sm = [] /\
    sum_error_count sm = 0 /\
    map fst (sum_stage_durations sm)
    = ["collection"; "processing"; "storage"; "alerts"] /\
    sum_start_time sm = Some (clock env (ticks (sys w0))) /\
    exists l, log wf = log w0 ++ l /\
              In (mkLog INFO "PIPELINE COMPLETED SUCCESSFULLY" []) l.
Proof.
  intros Fr C N P N' S A.
  rewrite run_begin_more in C. simpl in C.
  set (wb := mkWorld _ _ _ _) in C.
  assert (B : run_begin env w0 = (Ok tt, wb)) by apply run_begin_more.
  destruct (_collect_data_more _ _ _ _ C) as [[c1 D1] [_ [St1 [_ [Ag1 _]]]]].
  destruct (_collect_data_effect env _ _ _ _ C)
    as [_ [_ [[l1 [L1 _]] [Er1 Pc1]]]].
  destruct (_process_data_more _ _ _ _ P)
    as [[c2 D2] [_ [St2 [_ [Ag2 [_ [_ Pp2]]]]]]].
  destruct (_process_data_effect env _ _ _ _ P) as [_ [Pc2 [[l2 [L2 _]] Er2]]].
  destruct (_store_data_more _ _ _ _ _ _ S)
    as [[c3 D3] [_ [St3 [Pc3 [Pp3 [Ag3 _]]]]]].
  destruct (_store_data_effect env _ _ _ _ _ _ S) as [[l3 [L3 _]] Er3].
  destruct (_generate_alerts_more config proc w3)
    as [w5 [c4 [G [D4 [_ [St4 [Pc4 [Pp4 [_ [_ M]]]]]]]]]].
  rewrite A in M. simpl in M. destruct M as [Ag4 Er4].
  destruct (_generate_alerts_total env config proc w3) as [w5' [G' [l4 L4]]].
  rewrite G in G'. inversion G'; subst w5'; clear G'.
  destruct (_record_metrics_effect env w5) as [w6 [l6 [Rm [Mm [_ Lm]]]]].
  set (w7 := with_log (((log w6 ++ [mkLog INFO equals []])
                          ++ [mkLog INFO "PIPELINE COMPLETED SUCCESSFULLY" []])
                         ++ [mkLog INFO equals []]) w6).
  assert (Rb : run_body env config wb = (Ok tt, w7)).
  { unfold run_body. unfold bind at 1. rewrite C.
    destruct raw; [congruence|]. unfold bind at 1. rewrite P.
    destruct proc; [congruence|]. unfold bind at 1. rewrite S.
    unfold bind at 1. rewrite G. unfold bind at 1. rewrite Rm.
    unfold bind, logger, modify. simpl. reflexivity. }
  assert (R : run env config w0 = (Ok tt, finalized env w7)).
  { rewrite run_eq, B. simpl snd. unfold try_except. rewrite Rb. reflexivity. }
  assert (M7 : metrics w7 = metrics w5) by (unfold w7; simpl; exact Mm).
  exists (finalized env w7), (get_summary (metrics (finalized env w7))).
  split; [exact R|]. split; [reflexivity|].
  rewrite finalized_metrics, M7. unfold get_summary. simpl.
  rewrite Pc4, Pc3, Pc2, Pc1, Pp4, Pp3, Pp2, Ag4, Er4, Er3, Er2, Er1,
    St4, St3, St2, St1, D4, D3, D2, D1.
  unfold wb. simpl. rewrite Fr. simpl.
  repeat (split; [reflexivity|]).
  assert (L6 : exists lb, log w6 = log w0 ++ lb).
  { eexists. rewrite Lm, L4, L3, L2, L1. unfold wb. simpl log.
    rewrite <- !app_assoc. reflexivity. }
  destruct L6 as [lb L6].
  exists (lb ++ [mkLog INFO equals [];
                 mkLog INFO "PIPELINE COMPLETED SUCCESSFULLY" [];
                 mkLog INFO equals []]
             ++ summary_lines (get_summary (metrics (finalized env w7)))).
  split.
  - unfold finalized. simpl log. unfold w7. simpl log. rewrite L6.
    rewrite <- !app_assoc. reflexivity.
  - apply in_or_app. right. simpl. auto.
Qed.

(** X20: when the collector finds posts but the processor returns none,
    the run stops there and returns normally: the summary is written with
    [posts_collected] the number of posts found and [posts_processed] 0,
    the warning is logged, no error is added, the storage, alerting and
    metrics stages are not entered and the tables are untouched. *)
Theorem X20_zero_processed_is_a_noop config w0 raw w1 w2 :
  _collect_data env config (snd (run_begin env w0)) = (Ok raw, w1) ->
  raw <> [] ->
  _process_data env raw w1 = (Ok [], w2) ->
  exists wf sm l,
    run env config w0 = (Ok tt, wf) /\
    summary_file wf = Some sm /\
    sum_posts_collected sm = len raw /\
    sum_posts_processed sm = 0 /\
    sum_errors sm = errors (metrics w0) /\
    tables (sys wf) = tables (sys w0) /\
    log wf = log w0 ++ l /\
    In (mkLog WARNING "No posts processed, exiting pipeline" []) l /\
    not_logged STAGE_3 l /\ not_logged STAGE_4 l /\ not_logged STAGE_5 l.
Proof.
  intros C N P.
  destruct (run_begin_effect env w0) as [wb [B [Tb [Eb [_ [_ [lb [Lb Qb]]]]]]]].
  rewrite B in C. simpl in C.
  destruct (_collect_data_effect env _ _ _ _ C)
    as [Tc [_ [[lc [Lc Qc]] [Ec Cc]]]].
  destruct (_process_data_effect env _ _ _ _ P)
    as [Tp [Cp [[lp [Lp Qp]] Ep]]].
  destruct (_process_data_more _ _ _ _ P) as [_ [_ [_ [_ [_ [_ [_ Pp]]]]]]].
  set (w3 := with_log (log w2 ++ [mkLog WARNING
                                    "No posts processed, exiting pipeline" []])
                      w2).
  assert (Rb : run_body env config wb = (Ok tt, w3)).
  { unfold run_body. unfold bind at 1. rewrite C.
    destruct raw; [congruence|]. unfold bind at 1. rewrite P. reflexivity. }
  destruct (finalized_effect env w3)
    as [Tf [Sf [Se [_ [Sc [Sp [lf [Lf Qf]]]]]]]].
  assert (R : run env config w0 = (Ok tt, finalized env w3)).
  { rewrite run_eq, B. simpl snd. unfold try_except. rewrite Rb. reflexivity. }
  exists (finalized env w3), (get_summary (metrics (finalized env w3))),
    (lb ++ lc ++ lp
        ++ [mkLog WARNING "No posts processed, exiting pipeline" []] ++ lf).
  split; [exact R|]. split; [exact Sf|].
  split; [rewrite Sc; unfold w3; simpl metrics; congruence|].
  split; [rewrite Sp; unfold w3; simpl metrics; exact Pp|].
  split; [rewrite Se; unfold w3; simpl metrics; congruence|].
  split; [rewrite Tf; unfold w3; simpl; congruence|].
  split.
  { rewrite Lf. unfold w3. simpl log. rewrite Lp, Lc, Lb.
    rewrite <- !app_assoc. reflexivity. }
  split.
  { apply in_or_app. right. apply in_or_app. right. apply in_or_app. right.
    simpl. auto. }
  assert (Qw : forallb (quiet [STAGE_3; STAGE_4; STAGE_5])
                 [mkLog WARNING "No posts processed, exiting pipeline" []]
               = true) by reflexivity.
  repeat split; repeat apply not_logged_app;
    eapply quiet_not_logged; eauto; simpl; auto.
Qed.

(** X21: the error list of a run.  Whatever the environment does, a run
    only appends to the error list it finds.  A run that returns has
    appended nothing, or one error under ['alerts']; a run that raises
    has appended exactly two errors with the message of the exception it
    raises, the first under the name of a fatal stage and the second
    under ['pipeline']. *)
Theorem X21_errors_added_by_a_run config w :
  exists l,
    errors (metrics (snd (run env config w))) = errors (metrics w) ++ l /\
    match fst (run env config w) with
    | Ok _ => l = [] \/ exists m t, l = [mkError "alerts" m t]
    | Raise e =>
        exists stage t1 t2,
          In stage ["collection"; "processing"; "storage"] /\
          l = [mkError stage (exn_str e) t1;
               mkError "pipeline" (exn_str e) t2]
    end.
Proof.
  rewrite run_eq.
  destruct (run_begin_effect env w) as [wb [B [_ [Eb _]]]].
  rewrite B. cbn [fst snd]. rewrite finalized_metrics.
  change (errors (set_end_time ?t ?m)) with (errors m). rewrite <- Eb.
  assert (Fatal : forall stage e w',
             fatal_stage_raises env config wb stage e w' ->
             In stage ["collection"; "processing"; "storage"] ->
             exists l,
               errors (metrics (snd (try_except (run_body env config)
                                       (run_except env) wb)))
               = errors (metrics wb) ++ l /\
               match fst (try_except (run_body env config)
                            (run_except env) wb) with
               | Ok _ => l = [] \/ exists m t, l = [mkError "alerts" m t]
               | Raise e =>
                   exists stage t1 t2,
                     In stage ["collection"; "processing"; "storage"] /\
                     l = [mkError stage (exn_str e) t1;
                          mkError "pipeline" (exn_str e) t2]
               end).
  { intros stage e w' F Hs.
    destruct (run_body_fatal env _ _ _ _ _ F) as [Rb [[t1 Es] _]].
    destruct (run_except_effect env e w') as [w4 [X [_ [Ex _]]]].
    assert (T : try_except (run_body env config) (run_except env) wb
                = (Raise e, w4)) by (unfold try_except; rewrite Rb; exact X).
    rewrite T. cbn [fst snd].
    eexists. split.
    - rewrite Ex, Es. rewrite <- app_assoc. reflexivity.
    - exists stage, t1, (clock env (ticks (sys w'))).
      split; [exact Hs | reflexivity]. }
  destruct (_collect_data env config wb) as [[raw|e] w1] eqn:C.
  2:{ destruct (Fatal "collection" e w1) as [l [H1 H2]];
        [apply collection_raises; exact C | simpl; auto |].
      exists l. split; [exact H1|exact H2]. }
  destruct (_collect_data_effect env _ _ _ _ C) as [_ [_ [_ [Ec _]]]].
  destruct raw as [|r0 raw].
  { assert (T : try_except (run_body env config) (run_except env) wb
                = (Ok tt,
                   with_log (log w1 ++ [mkLog WARNING
                                          "No posts collected, exiting pipeline"
                                          []]) w1)).
    { unfold try_except, run_body. unfold bind at 1. rewrite C. reflexivity. }
    rewrite T. cbn [fst snd]. exists []. rewrite app_nil_r.
    split; [exact Ec | auto]. }
  destruct (_process_data env (r0 :: raw) w1) as [[proc|e] w2] eqn:P.
  2:{ destruct (Fatal "processing" e w2) as [l [H1 H2]];
        [eapply processing_raises; eauto; discriminate | simpl; auto |].
      exists l. split; [exact H1|exact H2]. }
  destruct (_process_data_effect env _ _ _ _ P) as [_ [_ [_ Ep]]].
  destruct proc as [|p0 proc].
  { assert (T : try_except (run_body env config) (run_except env) wb
                = (Ok tt,
                   with_log (log w2 ++ [mkLog WARNING
                                          "No posts processed, exiting pipeline"
                                          []]) w2)).
    { unfold try_except, run_body. unfold bind at 1. rewrite C.
      unfold bind at 1. rewrite P. reflexivity. }
    rewrite T. cbn [fst snd]. exists []. rewrite app_nil_r.
    split; [simpl; congruence | auto]. }
  destruct (_store_data env config (r0 :: raw) (p0 :: proc) w2)
    as [[[]|e] w3] eqn:S.
  2:{ destruct (Fatal "storage" e w3) as [l [H1 H2]];
        [eapply storage_raises; eauto; discriminate | simpl; auto |].
      exists l. split; [exact H1|exact H2]. }
  destruct (_store_data_effect env _ _ _ _ _ _ S) as [_ Es].
  destruct (_generate_alerts_more config (p0 :: proc) w3)
    as [w5 [c4 [G [_ [_ [_ [_ [_ [_ [_ M]]]]]]]]]].
  destruct (_record_metrics_effect env w5) as [w6 [l6 [Rm [Mm _]]]].
  assert (Rb : exists w7, run_body env config wb = (Ok tt, w7) /\
                          metrics w7 = metrics w5).
  { unfold run_body. unfold bind at 1. rewrite C.
    unfold bind at 1. rewrite P. unfold bind at 1. rewrite S.
    unfold bind at 1. rewrite G. unfold bind at 1. rewrite Rm.
    unfold bind, logger, modify. simpl. eexists. split; [reflexivity|].
    simpl. exact Mm. }
  destruct Rb as [w7 [Rb M7]].
  assert (T : try_except (run_body env config) (run_except env) wb
              = (Ok tt, w7)) by (unfold try_except; rewrite Rb; reflexivity).
  rewrite T. cbn [fst snd]. rewrite M7.
  destruct (fst (_generate_alerts_try env config (p0 :: proc)
                   (snd (_generate_alerts_begin env w3)))) as [[]|e].
  - destruct M as [_ M]. exists []. rewrite app_nil_r.
    split; [congruence|auto].
  - destruct M as [_ [t M]]. exists [mkError "alerts" (exn_str e) t].
    split; [congruence|]. right. eauto.
Qed.

(** X24: the metrics-recording stage never raises, also when
    [record_metric] does: whatever the five calls do, [_record_metrics]
    returns normally after logging its banner, and leaves the metrics of
    the run and the summary file as they were. *)
Theorem X24_record_metrics_stage_never_raises w :
  exists w' l,
    _record_metrics env w = (Ok tt, w') /\
    metrics w' = metrics w /\
    summary_file w' = summary_file w /\
    log w' = log w ++ mkLog INFO STAGE_5 [] :: l.
Proof. apply _record_metrics_effect. Qed.

End PipelineMore.

Section MainMore.
Variable env : Env.

Lemma DatabaseHandler_init_tables s r s' :
  DatabaseHandler_init env s = (r, s') -> tables s' = tables s.
Proof.
  unfold DatabaseHandler_init, try_except. unfold bind at 1.
  destruct (connect_fault env s);
    [db_prims; simpl; intros H; inversion H; reflexivity|].
  unfold bind at 1. unfold db_logger at 1, modify at 1.
  unfold init_schema, method, try_finally, try_except.
  unfold bind at 1. unfold acquire at 1. unfold get_connection. simpl.
  db_prims. unfold execute. simpl.
  destruct (exec_fault env _ _); simpl;
    [destruct (rollback_fault env _); simpl;
     intros H; inversion H; reflexivity|].
  destruct (commit_fault env _); simpl;
    [destruct (rollback_fault env _); simpl|];
    intros H; inversion H; reflexivity.
Qed.

Lemma SocialMonitoringPipeline_init_keeps config w r w' :
  SocialMonitoringPipeline_init env config w = (r, w') ->
  summary_file w' = summary_file w /\
  tables (sys w') = tables (sys w) /\
  metrics w' = PipelineMetrics_init.
Proof.
  destruct w as [sy me lo sf]. unfold SocialMonitoringPipeline_init.
  unfold update_metrics, fault, lift_sys, logger.
  unfold bind, try_except, modify, raise, ret. simpl.
  destruct (new_collector env config); simpl;
    [intros H; inversion H; subst; simpl; auto|].
  destruct (new_ml_processor env config); simpl;
    [intros H; inversion H; subst; simpl; auto|].
  destruct (database_args env config); simpl;
    [intros H; inversion H; subst; simpl; auto|].
  destruct (DatabaseHandler_init env sy) as [[[]|e'] s1] eqn:D; simpl;
    apply DatabaseHandler_init_tables in D.
  - destruct (new_notifier env config); simpl;
      [intros H; inversion H; subst; simpl; auto|].
    destruct (new_alert_manager env config); simpl;
      intros H; inversion H; subst; simpl; auto.
  - intros H; inversion H; subst; simpl; auto.
Qed.

(** X22: when the configuration cannot be loaded, or the pipeline cannot
    be constructed, [main] returns 1 without running the pipeline: no
    summary file is written and no table is changed. *)
Theorem X22_boot_failure_exits_with_1 w :
  (exists e, config_file env = Raise e) \/
  (exists config e w1,
      config_file env = Ok config /\
      SocialMonitoringPipeline_init env config
        (snd (load_config env w)) = (Raise e, w1)) ->
  exists wm,
    main env w = (Ok 1, wm) /\
    summary_file wm = summary_file w /\
    tables (sys wm) = tables (sys w).
Proof.
  intros [[e L]|[config [e [w1 [L I]]]]].
  - destruct w as [sy me lo sf].
    unfold main, load_config, try_except, bind, outcome. rewrite L.
    unfold raise, logger, modify, ret. simpl. eexists. repeat split.
  - assert (Lc : load_config env w
                 = (Ok config,
                    with_log (log w ++ [mkLog INFO "Configuration loaded from {}"
                                          [VStr "config.json"]]) w)).
    { unfold load_config, try_except, bind, outcome. rewrite L.
      unfold ret, logger, modify. reflexivity. }
    rewrite Lc in I. simpl snd in I.
    destruct (SocialMonitoringPipeline_init_keeps _ _ _ _ I) as [Sf [T _]].
    unfold main, try_except. unfold bind at 1. rewrite Lc.
    unfold bind at 1. rewrite I.
    unfold bind, logger, modify, ret. simpl.
    eexists. split; [reflexivity|]. simpl. split; [exact Sf | exact T].
Qed.
End MainMore.

(** * The further theorems at concrete inputs *)

Lemma X1_witness :
  processed_posts
    (tables (snd (insert_processed_posts env_ok
                    [processed "a" true; processed "a" true] "v2" sys_ab)))
  = [mkProcessedRow (processed "a" true) "v2";
     mkProcessedRow (processed "a" true) "v2"].
Proof.
  destruct (X1_insert_processed_posts_appends_the_batch env_ok
              [processed "a" true; processed "a" true] "v2" sys_ab 1
              (snd (insert_processed_posts env_ok
                      [processed "a" true; processed "a" true] "v2" sys_ab)))
    as [P _]; [vm_compute; reflexivity|].
  rewrite P. reflexivity.
Defined.

Lemma X2_witness :
  exists e s',
    insert_processed_posts env_ok
      [processed "a" true; processed "missing" true] "v1.0" sys_ab
    = (Raise e, s') /\
    tables s' = tables sys_ab.
Proof.
  apply (X2_orphan_processed_post_rejects_the_batch env_ok
           [processed "a" true; processed "missing" true] "v1.0" sys_ab
           (processed "missing" true)).
  - simpl. auto.
  - intros [id [E H]]. inversion E; subst id. vm_compute in H. discriminate.
Defined.

Lemma X4_witness :
  NoDup (stored_ids
           (tables (snd (insert_raw_posts env_ok [post_a; post_a; post_b]
                           sys_ab)))).
Proof.
  apply (X4_insert_raw_posts_keeps_identifiers_unique env_ok
           [post_a; post_a; post_b] sys_ab).
  vm_compute. repeat constructor; simpl; intuition discriminate.
Defined.


Lemma X8_witness :
  exists s',
    insert_raw_posts env_ok [post_a] sys_exhausted
    = (Raise (mkExn "PoolError" "connection pool exhausted"), s') /\
    tables s' = tables sys_exhausted.
Proof.
  destruct (X8_exhausted_pool env_ok sys_exhausted) as [R _];
    [reflexivity | reflexivity |].
  exact (R [post_a]).
Defined.

Lemma X9_witness :
  pool_idle (snd (DatabaseHandler_init env_ok sys0)) = 1%nat /\
  pool_used (snd (DatabaseHandler_init env_ok sys0)) = 0%nat /\
  tables (snd (DatabaseHandler_init env_ok sys0)) = tables sys0.
Proof.
  apply (X9_DatabaseHandler_init_leaves_one_idle_connection env_ok sys0).
  vm_compute. reflexivity.
Defined.

Lemma X13_witness :
  exists w5 w6 l,
    _generate_alerts env_ok config0
      [processed "a" true; processed "b" false]
      (stored env_ok [post_a; post_b]
         [processed "a" true; processed "b" false]) = (Ok tt, w5) /\
    _record_metrics env_ok w5 = (Ok tt, w6) /\
    pipeline_metrics (tables (sys w6))
    = pipeline_metrics (tables (sys w5)) ++ l /\
    forall row, In row l ->
                metric_name row = "execution_time" -> metric_value row = 0.
Proof.
  apply (X13_execution_time_metric_is_zero env_ok config0
           (constructed env_ok) [post_a; post_b] (collected env_ok)
           [processed "a" true; processed "b" false]
           (processed_in env_ok [post_a; post_b]));
    vm_compute; reflexivity.
Defined.

Lemma X14_witness :
  exists w' t,
    _collect_data env_ok config_empty world0
    = (Raise (KeyError "monitoring"), w') /\
    errors (metrics w')
    = errors (metrics world0)
        ++ [mkError "collection" ("'" ++ "monitoring" ++ "'") t] /\
    posts_collected (metrics w') = posts_collected (metrics world0).
Proof.
  apply (X14_missing_monitoring_key env_ok config_empty world0 "monitoring").
  reflexivity.
Defined.

Lemma X15_witness :
  posts_collected (metrics (snd (_collect_data env_ok config0 world0))) = 2.
Proof.
  destruct (X15_collection_returns_the_collector_answer env_ok config0 world0
              [post_a; post_b] (snd (_collect_data env_ok config0 world0)))
    as [_ [P _]]; [vm_compute; reflexivity|].
  exact P.
Defined.

Lemma X19_witness :
  exists wf sm,
    run env_ok config0 (constructed env_ok) = (Ok tt, wf) /\
    summary_file wf = Some sm /\
    sum_posts_collected sm = 2 /\
    sum_posts_processed sm = 2 /\
    sum_alerts_generated sm = 1 /\
    sum_error_count sm = 0.
Proof.
  destruct (X19_completed_run_summary env_ok config0 (constructed env_ok)
              [post_a; post_b] (collected env_ok)
              [processed "a" true; processed "b" false]
              (processed_in env_ok [post_a; post_b])
              (stored env_ok [post_a; post_b]
                 [processed "a" true; processed "b" false])
              (snd (_generate_alerts_try env_ok config0
                      [processed "a" true; processed "b" false]
                      (snd (_generate_alerts_begin env_ok
                              (stored env_ok [post_a; post_b]
                                 [processed "a" true; processed "b" false]))))))
    as [wf [sm [R [Sf [Sc [Sp [Sa [_ [Se _]]]]]]]]];
    [vm_compute; reflexivity | vm_compute; reflexivity | discriminate
    | vm_compute; reflexivity | discriminate | vm_compute; reflexivity
    | vm_compute; reflexivity |].
  exists wf, sm. split; [exact R|]. split; [exact Sf|]. split; [exact Sc|].
  split; [exact Sp|]. split; [exact Sa|exact Se].
Defined.

Lemma X20_witness :
  exists wf sm,
    run env_processor_drops_all config0
      (constructed env_processor_drops_all) = (Ok tt, wf) /\
    summary_file wf = Some sm /\
    sum_posts_collected sm = 2 /\
    sum_posts_processed sm = 0 /\
    tables (sys wf) = tables0.
Proof.
  destruct (X20_zero_processed_is_a_noop env_processor_drops_all config0
              (constructed env_processor_drops_all) [post_a; post_b]
              (collected env_processor_drops_all)
              (processed_in env_processor_drops_all [post_a; post_b]))
    as [wf [sm [l [R [Sf [Sc [Sp [_ [T _]]]]]]]]];
    [vm_compute; reflexivity | discriminate | vm_compute; reflexivity |].
  exists wf, sm. split; [exact R|]. split; [exact Sf|]. split; [exact Sc|].
  split; [exact Sp|]. rewrite T. vm_compute. reflexivity.
Defined.

Lemma X22_witness :
  exists wm,
    main env_no_config world0 = (Ok 1, wm) /\
    summary_file wm = None /\
    tables (sys wm) = tables0.
Proof.
  apply (X22_boot_failure_exits_with_1 env_no_config world0).
  left. eexists. reflexivity.
Defined.

Lemma X23_witness :
  exists s',
    record_metric env_metric_rejected "posts_collected" 2 None sys0
    = (Ok tt, s') /\
    tables s' = tables0 /\
    db_log s' = [mkLog ERROR "Error recording metric: {}"
                       [VStr "permission denied for table pipeline_metrics"]].
Proof.
  destruct (X23_record_metric_swallows_when_rollback_succeeds
              env_metric_rejected "posts_collected" 2 None sys0)
    as [s' [E _]]; [reflexivity|].
  exists s'. split; [exact E|].
  assert (Q : s' = snd (record_metric env_metric_rejected "posts_collected"
                          2 None sys0)) by (rewrite E; reflexivity).
  rewrite Q. split; vm_compute; reflexivity.
Defined.
